(** * Aviation Weather MCP server: a shallow embedding of [server.py]

    The server exposes five tools ([get_metar], [get_taf], [get_pireps],
    [get_airsigmet], [get_station_info]).  Each one assembles a query
    parameter dictionary, performs one GET through [_awc_get], serialises a
    structured answer with [json.dumps(data, indent=2)] and turns every
    exception into an "Error: ..." string with [_handle_error].

    Python values are embedded as follows.
    - [str] is a sequence of Unicode code points ([list N]); [lit] injects an
      ASCII literal.  Slicing, [strip], [in] and [lower] are written on code
      points, as Python defines them.
    - [int] is [Z]; [float] is a binary64 number ([PrimFloat.float]).
    - [dict] used as the query parameters is a [gmap str value]; a [dict]
      that is serialised keeps its insertion order (an association list).
    - the network (httpx) is a function from the request to either a raised
      exception or a response; a run of a coroutine also records the
      requests it sent. *)

From Stdlib Require Import ZArith NArith List Ascii String Bool Lia DecimalString.
From Stdlib Require Import Floats.PrimFloat.
From stdpp Require Import gmap list strings.

Local Open Scope Z_scope.
Set Warnings "-register-all".

(** ** Python strings *)

Module PyStr.

Definition char := N.
Definition str := list char.

(** An ASCII literal of the source, as code points. *)
Definition lit (s : string) : str := map N_of_ascii (list_ascii_of_string s).

(** [str.isspace] for one character: the code points CPython's
    [_PyUnicode_IsWhitespace] accepts. *)
Definition isspace (c : char) : bool :=
  ((9 <=? c) && (c <=? 13) || (28 <=? c) && (c <=? 32)
   || (c =? 133) || (c =? 160) || (c =? 5760)
   || (8192 <=? c) && (c <=? 8202)
   || (c =? 8232) || (c =? 8233) || (c =? 8239) || (c =? 8287)
   || (c =? 12288))%N.

Fixpoint lstrip (s : str) : str :=
  match s with
  | c :: s' => if isspace c then lstrip s' else s
  | [] => []
  end.

Definition rstrip (s : str) : str := rev (lstrip (rev s)).

(** [s.strip()] *)
Definition strip (s : str) : str := rstrip (lstrip s).

Fixpoint startswith (p s : str) : bool :=
  match p, s with
  | [], _ => true
  | a :: p', b :: s' => (a =? b)%N && startswith p' s'
  | _ :: _, [] => false
  end.

(** [sub in s] *)
Fixpoint contains (sub s : str) : bool :=
  startswith sub s ||
  match s with
  | [] => false
  | _ :: s' => contains sub s'
  end.

(** ASCII lower-casing, as [bytes.lower] does on header names. *)
Definition lower_char (c : char) : char :=
  if ((65 <=? c) && (c <=? 90))%N then (c + 32)%N else c.
Definition lower (s : str) : str := map lower_char s.

Fixpoint eqb (a b : str) : bool :=
  match a, b with
  | [], [] => true
  | x :: a', y :: b' => (x =? y)%N && eqb a' b'
  | _, _ => false
  end.

(** [sep.join(items)] *)
Fixpoint join (sep : str) (items : list str) : str :=
  match items with
  | [] => []
  | [x] => x
  | x :: rest => x ++ sep ++ join sep rest
  end.

(** [str(n)] / [repr(n)] of an [int]: decimal, with a leading minus sign. *)
Definition of_int (n : Z) : str := lit (NilZero.string_of_int (Z.to_int n)).

Definition hex_digit (d : N) : char :=
  if (d <? 10)%N then (48 + d)%N else (87 + d)%N.

(** ['{0:04x}'.format(n)] for [n < 0x10000]. *)
Definition hex4 (n : N) : str :=
  [ hex_digit (N.land (N.shiftr n 12) 15); hex_digit (N.land (N.shiftr n 8) 15);
    hex_digit (N.land (N.shiftr n 4) 15); hex_digit (N.land n 15) ].

(** [' ' * n] and friends. *)
Definition repeat_char (c : char) (n : nat) : str := repeat c n.

(** The two characters no literal of this file can hold. *)
Definition QUOTE : char := 34%N.
Definition LF : char := 10%N.

(** A text between double quotes. *)
Definition quoted (s : str) : str := [QUOTE] ++ s ++ [QUOTE].

End PyStr.
Export PyStr.

(** ** Python values *)

(** The values that flow through the server: what [resp.json()] can
    produce, and the scalars stored in the query parameters. *)
Inductive value :=
| VNone
| VBool (b : bool)
| VInt (n : Z)
| VFloat (f : float)
| VStr (s : str)
| VList (items : list value)
| VDict (items : list (str * value)).

(** [isinstance(data, (dict, list))] *)
Definition isinstance_dict_list (data : value) : bool :=
  match data with
  | VDict _ | VList _ => true
  | _ => false
  end.

(** Truthiness of a [str]: only the empty string is falsy. *)
Definition str_bool (s : str) : bool :=
  match s with
  | [] => false
  | _ :: _ => true
  end.

(** [x or d] for an [Optional[str]] [x] and a string [d]: [x] itself when
    it is truthy, [d] otherwise ([None] is falsy, like the empty string). *)
Definition py_or (x : option str) (d : str) : str :=
  match x with
  | Some s => if str_bool s then s else d
  | None => d
  end.

(** ** [json.dumps(obj, indent=n)]

    The encoder of CPython's [json] package with its default options
    ([ensure_ascii=True], [allow_nan=True], separators ["," ] and [": "] once
    an indent is given).  [float.__repr__] (shortest round-trip decimal) is
    not re-implemented: it is the parameter [float_repr]. *)

Module Json.

(** [ESCAPE_DCT] and the [\uXXXX] fallback of [py_encode_basestring_ascii]. *)
Definition escape_char (c : char) : str :=
  if (c =? 92)%N then lit "\\"
  else if (c =? 34)%N then [92; 34]%N
  else if (c =? 8)%N then lit "\b"
  else if (c =? 12)%N then lit "\f"
  else if (c =? 10)%N then lit "\n"
  else if (c =? 13)%N then lit "\r"
  else if (c =? 9)%N then lit "\t"
  else if ((32 <=? c) && (c <=? 126))%N then [c]
  else if (c <? 65536)%N then lit "\u" ++ hex4 c
  else
    let n := (c - 65536)%N in
    let s1 := N.lor 55296 (N.land (N.shiftr n 10) 1023) in
    let s2 := N.lor 56320 (N.land n 1023) in
    lit "\u" ++ hex4 s1 ++ lit "\u" ++ hex4 s2.

Definition encode_basestring_ascii (s : str) : str :=
  [34%N] ++ concat (map escape_char s) ++ [34%N].

(** The characters the encoder copies unchanged: printable ASCII other than
    the double quote and the backslash. *)
Definition plain (c : char) : bool :=
  ((32 <=? c) && (c <=? 126) && negb (c =? 34) && negb (c =? 92))%N.

Section Encoder.
Variable float_repr : float -> str.

(** [floatstr] *)
Definition floatstr (o : float) : str :=
  if PrimFloat.is_nan o then lit "NaN"
  else if PrimFloat.is_infinity o then
    (if PrimFloat.ltb o PrimFloat.zero then lit "-Infinity" else lit "Infinity")
  else float_repr o.

Definition newline_indent (indent level : nat) : str :=
  10%N :: repeat_char 32%N (indent * level).

(** [_iterencode], [_iterencode_list] and [_iterencode_dict] with the
    chunks concatenated; [level] is [_current_indent_level]. *)
Fixpoint iterencode (indent : nat) (o : value) (level : nat) : str :=
  match o with
  | VStr s => encode_basestring_ascii s
  | VNone => lit "null"
  | VBool true => lit "true"
  | VBool false => lit "false"
  | VInt n => of_int n
  | VFloat f => floatstr f
  | VList [] => lit "[]"
  | VList (v :: rest) =>
      let sep := lit "," ++ newline_indent indent (S level) in
      lit "[" ++ newline_indent indent (S level)
        ++ iterencode indent v (S level)
        ++ (fix tail (l : list value) : str :=
              match l with
              | [] => []
              | w :: l' => sep ++ iterencode indent w (S level) ++ tail l'
              end) rest
        ++ newline_indent indent level ++ lit "]"
  | VDict [] => lit "{}"
  | VDict ((k, v) :: rest) =>
      let sep := lit "," ++ newline_indent indent (S level) in
      lit "{" ++ newline_indent indent (S level)
        ++ encode_basestring_ascii k ++ lit ": " ++ iterencode indent v (S level)
        ++ (fix tail (l : list (str * value)) : str :=
              match l with
              | [] => []
              | (k', w) :: l' =>
                  sep ++ encode_basestring_ascii k' ++ lit ": "
                    ++ iterencode indent w (S level) ++ tail l'
              end) rest
        ++ newline_indent indent level ++ lit "}"
  end.

Definition dumps (obj : value) (indent : nat) : str := iterencode indent obj 0.
End Encoder.

End Json.

(** ** httpx: requests, responses, exceptions *)

(** What [_handle_error] reads from an exception it does not classify:
    [type(e).__name__] and [str(e)]. *)
Record exc_info := { exc_name : str; exc_str : str }.

(** What [resp.json()] does on a response: the parsed body, or the
    exception the decoder raises (a [json.JSONDecodeError], say). *)
Inductive json_result :=
| Parsed (v : value)
| DecodeError (info : exc_info).

(** An [httpx.Response] as far as the server reads it.  [headers] keeps the
    header list as received; [json] is the behaviour of [resp.json()]. *)
Record Response := {
  status_code : Z;
  headers : list (str * str);
  text : str;
  json : json_result
}.

(** The arguments of [client.get(url, params=params, headers=headers)] on a
    client built with [timeout=REQUEST_TIMEOUT]. *)
Record Request := {
  req_url : str;
  req_params : gmap str value;
  req_headers : list (str * str);
  req_timeout : float
}.

(** Instances of Python's [Exception] as [_handle_error] tells them apart:
    [httpx.HTTPStatusError] (with its [response]), [httpx.TimeoutException]
    (any of its subclasses), and every other exception class. *)
Inductive exn :=
| HTTPStatusError (response : Response)
| TimeoutException (info : exc_info)
| OtherException (info : exc_info).

(** [Headers.get(key, default)]: names compare case-insensitively and the
    values of a repeated header are joined with [", "]. *)
Definition headers_get (h : list (str * str)) (key default : str) : str :=
  match map snd (filter (fun kv => PyStr.eqb (lower (fst kv)) (lower key) = true) h) with
  | [] => default
  | items => join (lit ", ") items
  end.

(** [Response.is_success] *)
Definition is_success (resp : Response) : bool :=
  (200 <=? status_code resp) && (status_code resp <=? 299).

(** ** Coroutines

    A coroutine of the server is run against the network.  The run yields
    the requests that were sent, in order, and either the returned value or
    the exception that escaped. *)

Inductive outcome (A : Type) :=
| Returns (a : A)
| Raises (e : exn).
Arguments Returns {A} a.
Arguments Raises {A} e.

Definition Transport := Request -> outcome Response.

Definition M (A : Type) : Type := Transport -> list Request * outcome A.

Definition ret {A} (a : A) : M A := fun _ => ([], Returns a).

Definition raise {A} (e : exn) : M A := fun _ => ([], Raises e).

Definition bind {A B} (m : M A) (k : A -> M B) : M B :=
  fun net =>
    match m net with
    | (log, Returns a) => let '(log', r) := k a net in (log ++ log', r)
    | (log, Raises e) => (log, Raises e)
    end.

(** [try: body except Exception as e: handler(e)] *)
Definition try_except {A} (body : M A) (handler : exn -> M A) : M A :=
  fun net =>
    match body net with
    | (log, Raises e) => let '(log', r) := handler e net in (log ++ log', r)
    | done => done
    end.

(** [await client.get(...)] *)
Definition client_get (req : Request) : M Response := fun net => ([req], net req).

Notation "'do' x <- m ;; k" := (bind m (fun x => k))
  (at level 10, x name, m at level 99, k at level 200, only parsing).

Definition sent {A} (m : M A) (net : Transport) : list Request := fst (m net).
Definition result {A} (m : M A) (net : Transport) : outcome A := snd (m net).

(** [resp.raise_for_status()] *)
Definition raise_for_status (resp : Response) : M unit :=
  if is_success resp then ret tt else raise (HTTPStatusError resp).

(** [resp.json()] *)
Definition resp_json (resp : Response) : M value :=
  match json resp with
  | Parsed v => ret v
  | DecodeError info => raise (OtherException info)
  end.

(** ** Configuration *)

Definition AWC_BASE : str := lit "https://aviationweather.gov/api/data".
Definition USER_AGENT : str := lit "aviation-weather-mcp/1.0 (Claude Chat Connector)".
Definition REQUEST_TIMEOUT : float := 15%float.

(** ** Shared HTTP helper *)

(** The en dash of the bad-request message. *)
Definition EN_DASH : char := 8211%N.

Definition _awc_get (endpoint : str) (params : gmap str value) : M value :=
  let url := AWC_BASE ++ lit "/" ++ endpoint in
  let request_headers := [(lit "User-Agent", USER_AGENT)] in
  do resp <- client_get {| req_url := url; req_params := params;
                        req_headers := request_headers; req_timeout := REQUEST_TIMEOUT |} ;;
  if status_code resp =? 204 then
    ret (VDict [(lit "message", VStr (lit "No data available for this request."))])
  else if status_code resp =? 400 then
    ret (VDict [(lit "error",
                 VStr (lit "Bad request " ++ [EN_DASH]
                         ++ lit " check your parameters. Details: "
                         ++ strip (text resp)))])
  else
    do _ <- raise_for_status resp ;;
    let content_type := headers_get (headers resp) (lit "content-type") [] in
    if contains (lit "json") content_type then resp_json resp
    else ret (VStr (strip (text resp))).

(** Consistent error formatting. *)
Definition _handle_error (e : exn) : str :=
  match e with
  | HTTPStatusError response =>
      lit "Error: API returned status " ++ of_int (status_code response)
        ++ lit ". " ++ take 300 (text response)
  | TimeoutException _ =>
      lit "Error: Request to aviationweather.gov timed out. Try again."
  | OtherException info =>
      lit "Error: " ++ exc_name info ++ lit ": " ++ exc_str info
  end.

(** ** Tools *)

Section Tools.

(** [float.__repr__], used by [json.dumps] on the floats of an answer. *)
Variable float_repr : float -> str.

Definition get_metar (ids : str) (hours : option float) (format : option str)
  : M value :=
  try_except
    (let params : gmap str value :=
       <[lit "format" := VStr (py_or format (lit "json"))]>
         (<[lit "ids" := VStr ids]> ∅) in
     let params :=
       match hours with
       | Some h => <[lit "hours" := VFloat h]> params
       | None => params
       end in
     do data <- _awc_get (lit "metar") params ;;
     ret (if isinstance_dict_list data
          then VStr (Json.dumps float_repr data 2) else data))
    (fun e => ret (VStr (_handle_error e))).

Definition get_taf (ids : str) (format : option str) : M value :=
  try_except
    (let params : gmap str value :=
       <[lit "format" := VStr (py_or format (lit "json"))]>
         (<[lit "ids" := VStr ids]> ∅) in
     do data <- _awc_get (lit "taf") params ;;
     ret (if isinstance_dict_list data
          then VStr (Json.dumps float_repr data 2) else data))
    (fun e => ret (VStr (_handle_error e))).

Definition get_pireps (id : option str) (distance : option Z)
    (age : option float) (format : option str) : M value :=
  try_except
    (let params : gmap str value :=
       <[lit "format" := VStr (py_or format (lit "json"))]> ∅ in
     let params :=
       match id with
       | Some s => if str_bool s then <[lit "id" := VStr s]> params else params
       | None => params
       end in
     let params :=
       match distance with
       | Some d => <[lit "distance" := VInt d]> params
       | None => params
       end in
     let params :=
       match age with
       | Some a => <[lit "age" := VFloat a]> params
       | None => params
       end in
     do data <- _awc_get (lit "pirep") params ;;
     ret (if isinstance_dict_list data
          then VStr (Json.dumps float_repr data 2) else data))
    (fun e => ret (VStr (_handle_error e))).

Definition get_airsigmet (format : option str) (hazard : option str) : M value :=
  try_except
    (let params : gmap str value :=
       <[lit "format" := VStr (py_or format (lit "json"))]> ∅ in
     let params :=
       match hazard with
       | Some s => if str_bool s then <[lit "hazard" := VStr s]> params else params
       | None => params
       end in
     do data <- _awc_get (lit "airsigmet") params ;;
     ret (if isinstance_dict_list data
          then VStr (Json.dumps float_repr data 2) else data))
    (fun e => ret (VStr (_handle_error e))).

Definition get_station_info (ids : str) (format : option str) : M value :=
  try_except
    (let params : gmap str value :=
       <[lit "format" := VStr (py_or format (lit "json"))]>
         (<[lit "ids" := VStr ids]> ∅) in
     do data <- _awc_get (lit "stationinfo") params ;;
     ret (if isinstance_dict_list data
          then VStr (Json.dumps float_repr data 2) else data))
    (fun e => ret (VStr (_handle_error e))).

(** *** Calling a tool

    A caller names a tool and passes some of its keyword arguments; a
    keyword left out takes the default of the [def] line.  [Passed None]
    is an explicit [None]. *)

Inductive arg (A : Type) :=
| Omitted
| Passed (a : A).
Arguments Omitted {A}.
Arguments Passed {A} a.

Definition bind_default {A} (default : A) (a : arg A) : A :=
  match a with
  | Omitted => default
  | Passed v => v
  end.

Inductive call :=
| call_get_metar (ids : str) (hours : arg (option float)) (format : arg (option str))
| call_get_taf (ids : str) (format : arg (option str))
| call_get_pireps (id : arg (option str)) (distance : arg (option Z))
    (age : arg (option float)) (format : arg (option str))
| call_get_airsigmet (format : arg (option str)) (hazard : arg (option str))
| call_get_station_info (ids : str) (format : arg (option str)).

Definition call_tool (c : call) : M value :=
  match c with
  | call_get_metar ids hours format =>
      get_metar ids (bind_default None hours)
        (bind_default (Some (lit "json")) format)
  | call_get_taf ids format =>
      get_taf ids (bind_default (Some (lit "json")) format)
  | call_get_pireps id distance age format =>
      get_pireps (bind_default None id) (bind_default (Some 200) distance)
        (bind_default (Some 2%float) age)
        (bind_default (Some (lit "json")) format)
  | call_get_airsigmet format hazard =>
      get_airsigmet (bind_default (Some (lit "json")) format)
        (bind_default None hazard)
  | call_get_station_info ids format =>
      get_station_info ids (bind_default (Some (lit "json")) format)
  end.

(** The [format] argument a call passes, if any. *)
Definition call_format (c : call) : arg (option str) :=
  match c with
  | call_get_metar _ _ format | call_get_taf _ format
  | call_get_pireps _ _ _ format | call_get_airsigmet format _
  | call_get_station_info _ format => format
  end.

End Tools.

Arguments Omitted {A}.
Arguments Passed {A} a.

(** ** Sample inputs

    Concrete arguments, responses and networks for the closed examples of
    the verification part. *)

Definition KTUS : str := lit "KTUS".
Definition KORD : str := lit "KORD".

(** A float renderer for the closed examples; none of them serialises a
    float. *)
Definition sample_float_repr : float -> str := fun _ => lit "0.0".

(** A network that answers every request the same way. *)
Definition always (o : outcome Response) : Transport := fun _ => o.

Definition not_json : json_result :=
  DecodeError {| exc_name := lit "JSONDecodeError";
                 exc_str := lit "Expecting value: line 1 column 1 (char 0)" |}.

Definition bad_request_response : Response :=
  {| status_code := 400;
     headers := [(lit "Content-Type", lit "text/plain; charset=utf-8")];
     text := lit "Invalid station id" ++ [LF];
     json := not_json |}.

Definition no_content_response : Response :=
  {| status_code := 204; headers := []; text := []; json := not_json |}.

Definition unavailable_response : Response :=
  {| status_code := 503;
     headers := [(lit "Content-Type", lit "text/html")];
     text := lit "Service Unavailable";
     json := not_json |}.

Definition read_timeout : exn :=
  TimeoutException {| exc_name := lit "ReadTimeout"; exc_str := [] |}.

Definition connect_error : exn :=
  OtherException {| exc_name := lit "ConnectError";
                    exc_str := lit "All connection attempts failed" |}.

(** A 200 answer labelled JSON whose body does not parse. *)
Definition truncated_json_response : Response :=
  {| status_code := 200;
     headers := [(lit "Content-Type", lit "application/json")];
     text := lit "[{";
     json := DecodeError
               {| exc_name := lit "JSONDecodeError";
                  exc_str := lit "Expecting property name enclosed in double quotes: line 1 column 3 (char 2)" |} |}.

(** A GeoJSON answer under its registered media type. *)
Definition geojson_response : Response :=
  {| status_code := 200;
     headers := [(lit "Content-Type", lit "application/geo+json")];
     text := lit "{" ++ quoted (lit "type") ++ lit ": "
               ++ quoted (lit "FeatureCollection") ++ lit ", "
               ++ quoted (lit "features") ++ lit ": []}";
     json := Parsed (VDict [(lit "type", VStr (lit "FeatureCollection"));
                            (lit "features", VList [])]) |}.

(** A network with no data for any request. *)
Definition no_data : Transport := always (Returns no_content_response).

(** A 200 answer labelled JSON whose body is a bare number. *)
Definition scalar_json_response : Response :=
  {| status_code := 200;
     headers := [(lit "Content-Type", lit "application/json")];
     text := lit "42";
     json := Parsed (VInt 42) |}.

(** A 200 answer that declares no content type. *)
Definition unlabelled_response : Response :=
  {| status_code := 200;
     headers := [(lit "Server", lit "nginx")];
     text := lit "  [1, 2]" ++ [LF];
     json := Parsed (VList [VInt 1; VInt 2]) |}.

(** A 400 answer whose body is not ASCII ("Ungueltige Station" with its
    u-umlaut, then a line feed). *)
Definition bad_request_umlaut_response : Response :=
  {| status_code := 400;
     headers := [(lit "Content-Type", lit "text/plain; charset=utf-8")];
     text := lit "Ung" ++ [252%N] ++ lit "ltige Station" ++ [LF];
     json := not_json |}.

(** A raw-text answer. *)
Definition raw_response : Response :=
  {| status_code := 200;
     headers := [(lit "Content-Type", lit "text/plain")];
     text := lit "KTUS 041753Z 12008KT 10SM CLR 24/M02 A3012" ++ [LF];
     json := not_json |}.

(** * Verification *)

(** ** Views of a run *)

(** The one request [_awc_get] sends. *)
Definition awc_request (endpoint : str) (params : gmap str value) : Request :=
  {| req_url := AWC_BASE ++ lit "/" ++ endpoint; req_params := params;
     req_headers := [(lit "User-Agent", USER_AGENT)];
     req_timeout := REQUEST_TIMEOUT |}.

(** What [_awc_get] makes of a response on a 2xx status other than 204. *)
Definition decode_success (resp : Response) : outcome value :=
  if contains (lit "json") (headers_get (headers resp) (lit "content-type") [])
  then match json resp with
       | Parsed v => Returns v
       | DecodeError info => Raises (OtherException info)
       end
  else Returns (VStr (strip (text resp))).

(** What [_awc_get] makes of a response. *)
Definition awc_outcome (resp : Response) : outcome value :=
  if status_code resp =? 204 then
    Returns (VDict [(lit "message", VStr (lit "No data available for this request."))])
  else if status_code resp =? 400 then
    Returns (VDict [(lit "error",
                     VStr (lit "Bad request " ++ [EN_DASH]
                             ++ lit " check your parameters. Details: "
                             ++ strip (text resp)))])
  else if is_success resp then decode_success resp
  else Raises (HTTPStatusError resp).

(** What a tool returns, given how its [_awc_get] call ended. *)
Definition tool_result (float_repr : float -> str) (o : outcome value) : value :=
  match o with
  | Returns data =>
      if isinstance_dict_list data then VStr (Json.dumps float_repr data 2) else data
  | Raises e => VStr (_handle_error e)
  end.

Definition after_get (net : Transport) (req : Request) : outcome value :=
  match net req with
  | Returns resp => awc_outcome resp
  | Raises e => Raises e
  end.

(** The call sends one request, and the parameter mapping of that request
    holds [v] under the key [k] ([None]: the key is not there). *)
Definition sends (float_repr : float -> str) (c : call) (net : Transport)
    (k : str) (v : option value) : Prop :=
  exists req, sent (call_tool float_repr c) net = [req] /\ req_params req !! k = v.

(** The endpoint each tool passes to [_awc_get]. *)
Definition endpoint_of (c : call) : str :=
  match c with
  | call_get_metar _ _ _ => lit "metar"
  | call_get_taf _ _ => lit "taf"
  | call_get_pireps _ _ _ _ => lit "pirep"
  | call_get_airsigmet _ _ => lit "airsigmet"
  | call_get_station_info _ _ => lit "stationinfo"
  end.

(** The keys each tool may put in its parameter mapping. *)
Definition declared_keys (c : call) : list str :=
  match c with
  | call_get_metar _ _ _ => [lit "ids"; lit "format"; lit "hours"]
  | call_get_taf _ _ => [lit "ids"; lit "format"]
  | call_get_pireps _ _ _ _ => [lit "format"; lit "id"; lit "distance"; lit "age"]
  | call_get_airsigmet _ _ => [lit "format"; lit "hazard"]
  | call_get_station_info _ _ => [lit "ids"; lit "format"]
  end.

(** [isinstance(v, str)] *)
Definition is_str (v : value) : bool :=
  match v with
  | VStr _ => true
  | _ => false
  end.

(** The header list has an entry named [key], ASCII case ignored. *)
Definition has_header (h : list (str * str)) (key : str) : bool :=
  existsb (fun kv => PyStr.eqb (lower (fst kv)) (lower key)) h.

(** Printable ASCII, or a line feed: the characters of an indented JSON
    text under [ensure_ascii]. *)
Definition ascii_char (c : char) : bool :=
  ((c =? 10) || (32 <=? c) && (c <=? 126))%N.

Definition ascii_text (s : str) : bool := forallb ascii_char s.

(** Induction on a [value] through the lists it nests. *)
Section ValueInduction.
Variable P : value -> Prop.
Hypothesis P_none : P VNone.
Hypothesis P_bool : forall b, P (VBool b).
Hypothesis P_int : forall n, P (VInt n).
Hypothesis P_float : forall f, P (VFloat f).
Hypothesis P_str : forall s, P (VStr s).
Hypothesis P_list : forall items, Forall P items -> P (VList items).
Hypothesis P_dict :
  forall items, Forall (fun kv : str * value => P (snd kv)) items -> P (VDict items).

Fixpoint value_nested_ind (v : value) : P v :=
  match v with
  | VNone => P_none
  | VBool b => P_bool b
  | VInt n => P_int n
  | VFloat f => P_float f
  | VStr s => P_str s
  | VList items =>
      P_list items
        ((fix all (l : list value) : Forall P l :=
            match l with
            | [] => List.Forall_nil P
            | w :: l' => List.Forall_cons P w l' (value_nested_ind w) (all l')
            end) items)
  | VDict items =>
      P_dict items
        ((fix all (l : list (str * value)) : Forall (fun kv => P (snd kv)) l :=
            match l with
            | [] => List.Forall_nil _
            | kv :: l' =>
                List.Forall_cons (fun kv => P (snd kv)) kv l'
                  (value_nested_ind (snd kv)) (all l')
            end) items)
  end.
End ValueInduction.

Lemma awc_get_run endpoint params net :
  _awc_get endpoint params net
  = ([awc_request endpoint params], after_get net (awc_request endpoint params)).
Proof.
  unfold _awc_get, after_get, awc_outcome, decode_success, bind, client_get.
  fold (awc_request endpoint params).
  destruct (net (awc_request endpoint params)) as [resp|e]; [|reflexivity].
  destruct (status_code resp =? 204); [reflexivity|].
  destruct (status_code resp =? 400); [reflexivity|].
  unfold raise_for_status, resp_json.
  destruct (is_success resp); cbn; [|reflexivity].
  destruct (contains _ _); [|reflexivity].
  destruct (json resp); reflexivity.
Qed.

(** The handler every tool installs catches whatever its [try] block
    raises, and returns the string [_handle_error] makes of it. *)
Lemma try_except_handle_error (body : M value) net log e :
  body net = (log, Raises e) ->
  try_except body (fun e => ret (VStr (_handle_error e))) net
  = (log, Returns (VStr (_handle_error e))).
Proof. intros Hbody. unfold try_except, ret. rewrite Hbody, app_nil_r. reflexivity. Qed.

Lemma try_except_returns (body : M value) handler net log v :
  body net = (log, Returns v) -> try_except body handler net = (log, Returns v).
Proof. intros Hbody. unfold try_except. rewrite Hbody. reflexivity. Qed.

Section ToolRuns.
Variable float_repr : float -> str.

Lemma tool_run endpoint params net :
  try_except
    (do data <- _awc_get endpoint params ;;
     ret (if isinstance_dict_list data
          then VStr (Json.dumps float_repr data 2) else data))
    (fun e => ret (VStr (_handle_error e))) net
  = ([awc_request endpoint params],
     Returns (tool_result float_repr (after_get net (awc_request endpoint params)))).
Proof.
  unfold try_except, bind. rewrite awc_get_run.
  destruct (after_get net _) as [data|e]; reflexivity.
Qed.

(** Every call is one request through [_awc_get], and returns. *)
Lemma call_tool_run (c : call) :
  exists endpoint params, forall net,
    call_tool float_repr c net
    = ([awc_request endpoint params],
       Returns (tool_result float_repr (after_get net (awc_request endpoint params)))).
Proof.
  destruct c; cbn [call_tool];
    unfold get_metar, get_taf, get_pireps, get_airsigmet, get_station_info;
    eexists _, _; intros net; apply tool_run.
Qed.

End ToolRuns.

(** ** The model at work *)

Example strip_trims_both_ends :
  strip ([LF] ++ lit "  KTUS 041753Z  " ++ [LF; 13%N]) = lit "KTUS 041753Z".
Proof. reflexivity. Qed.

Example strip_keeps_inner_space : strip (lit " a b ") = lit "a b".
Proof. reflexivity. Qed.

Example contains_is_case_sensitive :
  contains (lit "json") (lit "application/json; charset=utf-8") = true /\
  contains (lit "json") (lit "application/JSON") = false.
Proof. repeat split. Qed.

Example text_media_types_lack_json :
  contains (lit "json") (lit "text/plain") = false /\
  contains (lit "json") (lit "text/csv") = false /\
  contains (lit "json") (lit "application/xml") = false.
Proof. repeat split. Qed.

Example headers_get_ignores_case :
  headers_get [(lit "Content-Type", lit "text/xml")] (lit "content-type") [] = lit "text/xml" /\
  headers_get [(lit "Server", lit "nginx")] (lit "content-type") [] = [].
Proof. split; reflexivity. Qed.

Example of_int_is_decimal :
  of_int 404 = lit "404" /\ of_int 0 = lit "0" /\ of_int (-7) = lit "-7".
Proof. repeat split. Qed.

Example dumps_nested :
  Json.dumps sample_float_repr
    (VDict [(lit "icaoId", VStr KTUS);
            (lit "clouds", VList [VDict [(lit "base", VInt 25000)]; VNone]);
            (lit "empty", VList [])]) 2
  = lit "{" ++ [LF]
      ++ lit "  " ++ quoted (lit "icaoId") ++ lit ": " ++ quoted (lit "KTUS") ++ lit "," ++ [LF]
      ++ lit "  " ++ quoted (lit "clouds") ++ lit ": [" ++ [LF]
      ++ lit "    {" ++ [LF]
      ++ lit "      " ++ quoted (lit "base") ++ lit ": 25000" ++ [LF]
      ++ lit "    }," ++ [LF]
      ++ lit "    null" ++ [LF]
      ++ lit "  ]," ++ [LF]
      ++ lit "  " ++ quoted (lit "empty") ++ lit ": []" ++ [LF]
      ++ lit "}".
Proof. reflexivity. Qed.

Example encode_escapes :
  Json.encode_basestring_ascii ([QUOTE] ++ lit "a\" ++ [EN_DASH; LF; 128512%N])
  = quoted (lit "\" ++ [QUOTE] ++ lit "a\\\u2013\n\ud83d\ude00").
Proof. reflexivity. Qed.

(** The four ways [_awc_get] reads a status code. *)

Lemma awc_outcome_204 resp :
  status_code resp = 204 ->
  awc_outcome resp
  = Returns (VDict [(lit "message", VStr (lit "No data available for this request."))]).
Proof. intros E. unfold awc_outcome. rewrite E. reflexivity. Qed.

Lemma awc_outcome_400 resp :
  status_code resp = 400 ->
  awc_outcome resp
  = Returns (VDict [(lit "error",
                     VStr (lit "Bad request " ++ [EN_DASH]
                             ++ lit " check your parameters. Details: "
                             ++ strip (text resp)))]).
Proof. intros E. unfold awc_outcome. rewrite E. reflexivity. Qed.

Lemma awc_outcome_failure resp :
  is_success resp = false -> status_code resp <> 400 ->
  awc_outcome resp = Raises (HTTPStatusError resp).
Proof.
  intros Hfail Hne. unfold awc_outcome.
  destruct (Z.eqb_spec (status_code resp) 204) as [E|_].
  { unfold is_success in Hfail. rewrite E in Hfail. discriminate. }
  destruct (Z.eqb_spec (status_code resp) 400) as [E|_]; [contradiction|].
  rewrite Hfail. reflexivity.
Qed.

Lemma awc_outcome_success resp :
  is_success resp = true -> status_code resp <> 204 ->
  awc_outcome resp = decode_success resp.
Proof.
  intros Hok Hne. unfold awc_outcome.
  destruct (Z.eqb_spec (status_code resp) 204) as [E|_]; [contradiction|].
  destruct (Z.eqb_spec (status_code resp) 400) as [E|_].
  { unfold is_success in Hok. rewrite E in Hok. discriminate. }
  rewrite Hok. reflexivity.
Qed.

(** From "the call sent [req]" to the request of [call_tool_run]. *)
Ltac open_run float_repr c Hsent :=
  let endpoint := fresh "endpoint" in
  let params := fresh "params" in
  let Hrun := fresh "Hrun" in
  destruct (call_tool_run float_repr c) as (endpoint & params & Hrun);
  unfold sent, result in *; rewrite Hrun in *; cbn [fst snd] in *;
  injection Hsent as <-; unfold after_get.

(** ** Error handling (C1 to C5) *)

Lemma handle_error_prefix (e : exn) :
  startswith (lit "Error:") (_handle_error e) = true.
Proof. destruct e; reflexivity. Qed.

(** C1. Whatever goes wrong inside a tool, the tool returns a string that
    begins with "Error:" and nothing escapes.  For every call and every
    network: the call sends one request and returns (it never raises); and
    for each place an exception can arise inside the [try] block (the
    transport call raises [e], [raise_for_status] raises on a status that is
    neither 2xx nor 400, [resp.json()] raises on a body that does not
    decode) the returned value is the string [_handle_error] makes of that
    exception, which begins with "Error:".  Parameter assembly and
    [json.dumps] cannot raise on the typed arguments and parsed values of
    the model. *)
Theorem C1_every_exception_becomes_an_error_string
    (float_repr : float -> str) (c : call) (net : Transport) :
  exists req,
    sent (call_tool float_repr c) net = [req] /\
    (exists v, result (call_tool float_repr c) net = Returns v) /\
    (forall e, net req = Raises e ->
       result (call_tool float_repr c) net = Returns (VStr (_handle_error e)) /\
       startswith (lit "Error:") (_handle_error e) = true) /\
    (forall resp, net req = Returns resp ->
       is_success resp = false -> status_code resp <> 400 ->
       result (call_tool float_repr c) net
       = Returns (VStr (_handle_error (HTTPStatusError resp))) /\
       startswith (lit "Error:") (_handle_error (HTTPStatusError resp)) = true) /\
    (forall resp info, net req = Returns resp ->
       is_success resp = true -> status_code resp <> 204 ->
       contains (lit "json") (headers_get (headers resp) (lit "content-type") []) = true ->
       json resp = DecodeError info ->
       result (call_tool float_repr c) net
       = Returns (VStr (_handle_error (OtherException info))) /\
       startswith (lit "Error:") (_handle_error (OtherException info)) = true).
Proof.
  destruct (call_tool_run float_repr c) as (endpoint & params & Hrun).
  exists (awc_request endpoint params).
  unfold sent, result. rewrite Hrun. cbn [fst snd].
  split; [reflexivity|]. split; [eauto|]. unfold after_get.
  split; [|split].
  - intros e Hnet. rewrite Hnet. split; [reflexivity | apply handle_error_prefix].
  - intros resp Hnet Hfail Hne. rewrite Hnet, awc_outcome_failure by assumption.
    split; [reflexivity | apply handle_error_prefix].
  - intros resp info Hnet Hok Hne Hct Hjson.
    rewrite Hnet, awc_outcome_success by assumption.
    unfold decode_success. rewrite Hct, Hjson.
    split; [reflexivity | apply handle_error_prefix].
Qed.

(** A refused connection under [get_metar], a 503 under [get_pireps] and an
    undecodable body under [get_taf] all come back as "Error:" strings. *)
Lemma C1_witness :
  result (call_tool sample_float_repr (call_get_metar KTUS Omitted Omitted))
    (always (Raises connect_error))
  = Returns (VStr (lit "Error: ConnectError: All connection attempts failed")) /\
  result (call_tool sample_float_repr (call_get_pireps Omitted Omitted Omitted Omitted))
    (always (Returns unavailable_response))
  = Returns (VStr (lit "Error: API returned status 503. Service Unavailable")) /\
  result (call_tool sample_float_repr (call_get_taf KTUS Omitted))
    (always (Returns truncated_json_response))
  = Returns (VStr (lit "Error: JSONDecodeError: Expecting property name enclosed in double quotes: line 1 column 3 (char 2)")).
Proof.
  split; [|split].
  - destruct (C1_every_exception_becomes_an_error_string sample_float_repr
                (call_get_metar KTUS Omitted Omitted) (always (Raises connect_error)))
      as (req & _ & _ & Hraise & _).
    exact (proj1 (Hraise connect_error eq_refl)).
  - destruct (C1_every_exception_becomes_an_error_string sample_float_repr
                (call_get_pireps Omitted Omitted Omitted Omitted)
                (always (Returns unavailable_response)))
      as (req & _ & _ & _ & Hstatus & _).
    refine (proj1 (Hstatus unavailable_response eq_refl eq_refl _)).
    discriminate.
  - destruct (C1_every_exception_becomes_an_error_string sample_float_repr
                (call_get_taf KTUS Omitted) (always (Returns truncated_json_response)))
      as (req & _ & _ & _ & _ & Hdecode).
    refine (proj1 (Hdecode truncated_json_response _ eq_refl eq_refl _ eq_refl eq_refl)).
    discriminate.
Defined.

Lemma escape_plain (s : str) :
  forallb Json.plain s = true -> concat (map Json.escape_char s) = s.
Proof.
  induction s as [|c s IH]; [reflexivity|].
  cbn [forallb map concat]. intros [Hc Hs]%andb_true_iff.
  rewrite (IH Hs). clear IH Hs.
  unfold Json.plain in Hc.
  apply andb_true_iff in Hc as [[[Hlo Hhi]%andb_true_iff Hq]%andb_true_iff Hb].
  apply negb_true_iff in Hq, Hb.
  unfold Json.escape_char. rewrite Hb, Hq, Hlo, Hhi.
  apply N.leb_le in Hlo.
  assert ((c =? 8) = false)%N as -> by (apply N.eqb_neq; lia).
  assert ((c =? 12) = false)%N as -> by (apply N.eqb_neq; lia).
  assert ((c =? 10) = false)%N as -> by (apply N.eqb_neq; lia).
  assert ((c =? 13) = false)%N as -> by (apply N.eqb_neq; lia).
  assert ((c =? 9) = false)%N as -> by (apply N.eqb_neq; lia).
  reflexivity.
Qed.

(** The serialised bad-request value, up to the encoded message. *)
Lemma dumps_bad_request float_repr (body : str) :
  Json.dumps float_repr
    (VDict [(lit "error",
             VStr (lit "Bad request " ++ [EN_DASH]
                     ++ lit " check your parameters. Details: " ++ body))]) 2
  = lit "{" ++ [LF] ++ lit "  " ++ quoted (lit "error") ++ lit ": "
      ++ quoted (lit "Bad request \u2013 check your parameters. Details: "
                   ++ concat (map Json.escape_char body))
      ++ [LF] ++ lit "}".
Proof.
  unfold Json.dumps, Json.iterencode, Json.encode_basestring_ascii.
  rewrite !map_app, !concat_app. reflexivity.
Qed.

(** C2. An upstream 400 is returned as data.  For every call whose request
    is answered with status 400, the tool returns (it does not raise) the
    string [json.dumps] makes of the mapping whose "error" entry is the
    bad-request message followed by the trimmed response body; that string
    does not begin with "Error:"; and when the trimmed body needs no JSON
    escaping it stands in the result verbatim. *)
Theorem C2_bad_request_is_returned_as_data
    (float_repr : float -> str) (c : call) (net : Transport)
    (req : Request) (resp : Response) :
  sent (call_tool float_repr c) net = [req] ->
  net req = Returns resp ->
  status_code resp = 400 ->
  exists s,
    result (call_tool float_repr c) net = Returns (VStr s) /\
    s = Json.dumps float_repr
          (VDict [(lit "error",
                   VStr (lit "Bad request " ++ [EN_DASH]
                           ++ lit " check your parameters. Details: "
                           ++ strip (text resp)))]) 2 /\
    startswith (lit "Error:") s = false /\
    (forallb Json.plain (strip (text resp)) = true ->
     s = lit "{" ++ [LF] ++ lit "  " ++ quoted (lit "error") ++ lit ": "
           ++ quoted (lit "Bad request \u2013 check your parameters. Details: "
                        ++ strip (text resp))
           ++ [LF] ++ lit "}").
Proof.
  intros Hsent Hnet Hstatus. open_run float_repr c Hsent.
  rewrite Hnet, awc_outcome_400 by assumption. cbn [tool_result isinstance_dict_list].
  eexists. split; [reflexivity|]. split; [reflexivity|].
  rewrite dumps_bad_request. split; [reflexivity|].
  intros Hplain. rewrite escape_plain by assumption. reflexivity.
Qed.

Lemma C2_witness :
  sent (call_tool sample_float_repr (call_get_taf KTUS Omitted))
    (always (Returns bad_request_response))
  = [awc_request (lit "taf")
       (<[lit "format" := VStr (lit "json")]> (<[lit "ids" := VStr KTUS]> ∅))] /\
  status_code bad_request_response = 400 /\
  exists s,
    result (call_tool sample_float_repr (call_get_taf KTUS Omitted))
      (always (Returns bad_request_response)) = Returns (VStr s) /\
    s = Json.dumps sample_float_repr
          (VDict [(lit "error",
                   VStr (lit "Bad request " ++ [EN_DASH]
                           ++ lit " check your parameters. Details: "
                           ++ lit "Invalid station id"))]) 2 /\
    startswith (lit "Error:") s = false /\
    (forallb Json.plain (lit "Invalid station id") = true ->
     s = lit "{" ++ [LF] ++ lit "  " ++ quoted (lit "error") ++ lit ": "
           ++ quoted (lit "Bad request \u2013 check your parameters. Details: Invalid station id")
           ++ [LF] ++ lit "}").
Proof.
  split; [reflexivity|]. split; [reflexivity|].
  exact (C2_bad_request_is_returned_as_data sample_float_repr
           (call_get_taf KTUS Omitted) (always (Returns bad_request_response))
           _ bad_request_response eq_refl eq_refl eq_refl).
Defined.

(** C3. An upstream 204 is an empty result, not a fault.  For every call
    whose request is answered with status 204, the tool returns the
    serialisation of the mapping with the one entry "message": "No data
    available for this request.", which is the three-line text below and
    does not begin with "Error:". *)
Theorem C3_no_content_is_a_message
    (float_repr : float -> str) (c : call) (net : Transport)
    (req : Request) (resp : Response) :
  sent (call_tool float_repr c) net = [req] ->
  net req = Returns resp ->
  status_code resp = 204 ->
  result (call_tool float_repr c) net
  = Returns (VStr (Json.dumps float_repr
                     (VDict [(lit "message",
                              VStr (lit "No data available for this request."))]) 2)) /\
  Json.dumps float_repr
    (VDict [(lit "message", VStr (lit "No data available for this request."))]) 2
  = lit "{" ++ [LF] ++ lit "  " ++ quoted (lit "message") ++ lit ": "
      ++ quoted (lit "No data available for this request.") ++ [LF] ++ lit "}" /\
  startswith (lit "Error:")
    (Json.dumps float_repr
       (VDict [(lit "message", VStr (lit "No data available for this request."))]) 2)
  = false.
Proof.
  intros Hsent Hnet Hstatus. open_run float_repr c Hsent.
  rewrite Hnet, awc_outcome_204 by assumption.
  repeat split.
Qed.

Lemma C3_witness :
  sent (call_tool sample_float_repr (call_get_airsigmet Omitted Omitted))
    (always (Returns no_content_response))
  = [awc_request (lit "airsigmet") (<[lit "format" := VStr (lit "json")]> ∅)] /\
  status_code no_content_response = 204 /\
  result (call_tool sample_float_repr (call_get_airsigmet Omitted Omitted))
    (always (Returns no_content_response))
  = Returns (VStr (lit "{" ++ [LF] ++ lit "  " ++ quoted (lit "message") ++ lit ": "
                     ++ quoted (lit "No data available for this request.")
                     ++ [LF] ++ lit "}")).
Proof.
  split; [reflexivity|]. split; [reflexivity|].
  exact (proj1 (C3_no_content_is_a_message sample_float_repr
                  (call_get_airsigmet Omitted Omitted)
                  (always (Returns no_content_response))
                  _ no_content_response eq_refl eq_refl eq_refl)).
Defined.

(** C4. A timeout gives one fixed message, whatever the tool.  For every
    call, when the transport call raises [httpx.TimeoutException] (any of
    its subclasses, with any message), the tool returns exactly the string
    "Error: Request to aviationweather.gov timed out. Try again.". *)
Theorem C4_timeout_message
    (float_repr : float -> str) (c : call) (net : Transport)
    (req : Request) (info : exc_info) :
  sent (call_tool float_repr c) net = [req] ->
  net req = Raises (TimeoutException info) ->
  result (call_tool float_repr c) net
  = Returns (VStr (lit "Error: Request to aviationweather.gov timed out. Try again.")).
Proof.
  intros Hsent Hnet. open_run float_repr c Hsent.
  rewrite Hnet. reflexivity.
Qed.

Lemma C4_witness :
  sent (call_tool sample_float_repr (call_get_station_info KTUS Omitted))
    (always (Raises read_timeout))
  = [awc_request (lit "stationinfo")
       (<[lit "format" := VStr (lit "json")]> (<[lit "ids" := VStr KTUS]> ∅))] /\
  result (call_tool sample_float_repr (call_get_station_info KTUS Omitted))
    (always (Raises read_timeout))
  = Returns (VStr (lit "Error: Request to aviationweather.gov timed out. Try again.")).
Proof.
  split; [reflexivity|].
  exact (C4_timeout_message sample_float_repr (call_get_station_info KTUS Omitted)
           (always (Raises read_timeout)) _ _ eq_refl eq_refl).
Defined.

(** C5. Any other failing status is reported with its code and an excerpt.
    For every call whose request is answered with a status outside 200..299
    (so not 204) and other than 400, the tool returns "Error: API returned
    status ", the status code in decimal, ". " and the first 300 characters
    of the response body: a prefix of the body of length at most 300. *)
Theorem C5_status_fault_message
    (float_repr : float -> str) (c : call) (net : Transport)
    (req : Request) (resp : Response) :
  sent (call_tool float_repr c) net = [req] ->
  net req = Returns resp ->
  is_success resp = false ->
  status_code resp <> 400 ->
  result (call_tool float_repr c) net
  = Returns (VStr (lit "Error: API returned status " ++ of_int (status_code resp)
                     ++ lit ". " ++ take 300 (text resp))) /\
  (length (take 300 (text resp)) <= 300)%nat /\
  take 300 (text resp) `prefix_of` text resp.
Proof.
  intros Hsent Hnet Hfail Hne. open_run float_repr c Hsent.
  rewrite Hnet, awc_outcome_failure by assumption.
  split; [reflexivity|]. split.
  - rewrite length_take. lia.
  - apply prefix_take.
Qed.

Lemma C5_witness :
  sent (call_tool sample_float_repr (call_get_pireps Omitted Omitted Omitted Omitted))
    (always (Returns unavailable_response))
  = [awc_request (lit "pirep")
       (<[lit "age" := VFloat 2%float]>
          (<[lit "distance" := VInt 200]>
             (<[lit "format" := VStr (lit "json")]> ∅)))] /\
  is_success unavailable_response = false /\
  status_code unavailable_response <> 400 /\
  result (call_tool sample_float_repr (call_get_pireps Omitted Omitted Omitted Omitted))
    (always (Returns unavailable_response))
  = Returns (VStr (lit "Error: API returned status 503. Service Unavailable")).
Proof.
  split; [reflexivity|]. split; [reflexivity|]. split; [discriminate|].
  refine (proj1 (C5_status_fault_message sample_float_repr
                   (call_get_pireps Omitted Omitted Omitted Omitted)
                   (always (Returns unavailable_response))
                   _ unavailable_response eq_refl eq_refl eq_refl _)).
  discriminate.
Defined.

(** ** Decoding (C6) *)

(** C6, as stated, fails on GeoJSON: an answer labelled with GeoJSON's media
    type [application/geo+json] has "json" in its content type, so
    [_awc_get] returns the parsed mapping and not the trimmed text. *)
Lemma C6_geojson_is_parsed_not_text :
  result (_awc_get (lit "metar")
            (<[lit "format" := VStr (lit "geojson")]> (<[lit "ids" := VStr KTUS]> ∅)))
    (always (Returns geojson_response))
  = Returns (VDict [(lit "type", VStr (lit "FeatureCollection"));
                    (lit "features", VList [])]) /\
  result (_awc_get (lit "metar")
            (<[lit "format" := VStr (lit "geojson")]> (<[lit "ids" := VStr KTUS]> ∅)))
    (always (Returns geojson_response))
  <> Returns (VStr (strip (text geojson_response))).
Proof. split; [reflexivity | discriminate]. Qed.

(** C6, amended.  On a 2xx answer other than 204, what [_awc_get] returns is
    decided by the answer alone: when its content-type header contains
    "json" (as [application/json] and [application/geo+json] do) the result
    is what [resp.json()] gives, the parsed value or the decoder's
    exception; otherwise it is the trimmed body text.  The request, and
    with it the [format] parameter, plays no part: any other request
    answered with the same response decodes to the same result. *)
Theorem C6_decoding_follows_content_type
    (endpoint : str) (params : gmap str value) (net : Transport)
    (req : Request) (resp : Response) :
  sent (_awc_get endpoint params) net = [req] ->
  net req = Returns resp ->
  is_success resp = true ->
  status_code resp <> 204 ->
  (contains (lit "json") (headers_get (headers resp) (lit "content-type") []) = true ->
   result (_awc_get endpoint params) net
   = match json resp with
     | Parsed v => Returns v
     | DecodeError info => Raises (OtherException info)
     end) /\
  (contains (lit "json") (headers_get (headers resp) (lit "content-type") []) = false ->
   result (_awc_get endpoint params) net = Returns (VStr (strip (text resp)))) /\
  (forall endpoint' params' net' req',
     sent (_awc_get endpoint' params') net' = [req'] ->
     net' req' = Returns resp ->
     result (_awc_get endpoint' params') net' = result (_awc_get endpoint params) net).
Proof.
  intros Hsent Hnet Hok Hne.
  assert (Hres : result (_awc_get endpoint params) net = decode_success resp).
  { unfold sent, result in *. rewrite awc_get_run in *. cbn [fst snd] in *.
    injection Hsent as <-. unfold after_get. rewrite Hnet.
    apply awc_outcome_success; assumption. }
  rewrite Hres. unfold decode_success. split; [|split].
  - intros ->. reflexivity.
  - intros ->. reflexivity.
  - intros endpoint' params' net' req' Hsent' Hnet'.
    unfold sent, result in *. rewrite awc_get_run in *. cbn [fst snd] in *.
    injection Hsent' as <-. unfold after_get. rewrite Hnet'.
    apply awc_outcome_success; assumption.
Qed.

(** A raw-text answer to a request that asked for JSON comes back as the
    trimmed text. *)
Lemma C6_witness :
  sent (_awc_get (lit "metar")
          (<[lit "format" := VStr (lit "json")]> (<[lit "ids" := VStr KTUS]> ∅)))
    (always (Returns raw_response))
  = [awc_request (lit "metar")
       (<[lit "format" := VStr (lit "json")]> (<[lit "ids" := VStr KTUS]> ∅))] /\
  is_success raw_response = true /\
  status_code raw_response <> 204 /\
  contains (lit "json") (headers_get (headers raw_response) (lit "content-type") []) = false /\
  result (_awc_get (lit "metar")
            (<[lit "format" := VStr (lit "json")]> (<[lit "ids" := VStr KTUS]> ∅)))
    (always (Returns raw_response))
  = Returns (VStr (lit "KTUS 041753Z 12008KT 10SM CLR 24/M02 A3012")).
Proof.
  split; [reflexivity|]. split; [reflexivity|]. split; [discriminate|].
  split; [reflexivity|].
  refine (proj1 (proj2 (C6_decoding_follows_content_type (lit "metar") _
                          (always (Returns raw_response)) _ raw_response
                          eq_refl eq_refl eq_refl _)) eq_refl).
  discriminate.
Defined.

(** ** Parameter assembly (C7 to C10) *)

(** Runs a call up to its request and leaves the lookup in its parameters. *)
Ltac open_sends :=
  unfold sends, sent, call_tool, get_metar, get_taf, get_pireps, get_airsigmet,
    get_station_info;
  rewrite tool_run; eexists; split; [reflexivity|];
  cbn [req_params awc_request bind_default].

(** C7. For [get_metar] with [hours] left unset and for [get_taf], a call
    with ids="KTUS" and the default format sends the parameter mapping with
    exactly the two entries ids="KTUS" and format="json". *)
Theorem C7_ktus_default_parameters (float_repr : float -> str) (net : Transport) :
  map req_params (sent (call_tool float_repr (call_get_metar KTUS Omitted Omitted)) net)
  = [ {[ lit "ids" := VStr (lit "KTUS"); lit "format" := VStr (lit "json") ]} ] /\
  map req_params (sent (call_tool float_repr (call_get_taf KTUS Omitted)) net)
  = [ {[ lit "ids" := VStr (lit "KTUS"); lit "format" := VStr (lit "json") ]} ].
Proof.
  unfold sent, call_tool, get_metar, get_taf. rewrite !tool_run.
  cbn [fst map req_params awc_request bind_default].
  split; f_equal; vm_compute; reflexivity.
Qed.

(** What each tool sends for each of its parameters, for all arguments. *)

Lemma metar_sends_hours float_repr net ids hours format :
  sends float_repr (call_get_metar ids hours format) net (lit "hours")
    (match bind_default None hours with
     | Some h => Some (VFloat h)
     | None => None
     end).
Proof. open_sends. destruct hours as [|[h|]]; vm_compute; reflexivity. Qed.

Lemma pireps_sends_id float_repr net id distance age format :
  sends float_repr (call_get_pireps id distance age format) net (lit "id")
    (match bind_default None id with
     | Some (ch :: s) => Some (VStr (ch :: s))
     | _ => None
     end).
Proof.
  open_sends.
  destruct id as [|[[|ch s]|]], distance as [|[d|]], age as [|[a|]];
    vm_compute; reflexivity.
Qed.

Lemma pireps_sends_distance float_repr net id distance age format :
  sends float_repr (call_get_pireps id distance age format) net (lit "distance")
    (match bind_default (Some 200) distance with
     | Some d => Some (VInt d)
     | None => None
     end).
Proof.
  open_sends.
  destruct id as [|[[|ch s]|]], distance as [|[d|]], age as [|[a|]];
    vm_compute; reflexivity.
Qed.

Lemma pireps_sends_age float_repr net id distance age format :
  sends float_repr (call_get_pireps id distance age format) net (lit "age")
    (match bind_default (Some 2%float) age with
     | Some a => Some (VFloat a)
     | None => None
     end).
Proof.
  open_sends.
  destruct id as [|[[|ch s]|]], distance as [|[d|]], age as [|[a|]];
    vm_compute; reflexivity.
Qed.

Lemma airsigmet_sends_hazard float_repr net format hazard :
  sends float_repr (call_get_airsigmet format hazard) net (lit "hazard")
    (match bind_default None hazard with
     | Some (ch :: s) => Some (VStr (ch :: s))
     | _ => None
     end).
Proof. open_sends. destruct hazard as [|[[|ch s]|]]; vm_compute; reflexivity. Qed.

Lemma call_sends_format float_repr net c :
  sends float_repr c net (lit "format")
    (Some (VStr (py_or (bind_default (Some (lit "json")) (call_format c)) (lit "json")))).
Proof.
  destruct c as [ids hours format | ids format | id distance age format
                 | format hazard | ids format]; open_sends; cbn [call_format].
  - destruct hours as [|[h|]]; vm_compute; reflexivity.
  - vm_compute; reflexivity.
  - destruct id as [|[[|ch s]|]], distance as [|[d|]], age as [|[a|]];
      vm_compute; reflexivity.
  - destruct hazard as [|[[|ch s]|]]; vm_compute; reflexivity.
  - vm_compute; reflexivity.
Qed.

Lemma sends_functional float_repr net c k v w :
  sends float_repr c net k v -> sends float_repr c net k w -> v = w.
Proof.
  intros (req & Hreq & Hv) (req' & Hreq' & Hw).
  rewrite Hreq in Hreq'. injection Hreq' as <-. congruence.
Qed.

Lemma tools_send_ids float_repr net ids :
  (forall hours format,
     sends float_repr (call_get_metar ids hours format) net (lit "ids") (Some (VStr ids))) /\
  (forall format,
     sends float_repr (call_get_taf ids format) net (lit "ids") (Some (VStr ids))) /\
  (forall format,
     sends float_repr (call_get_station_info ids format) net (lit "ids") (Some (VStr ids))).
Proof.
  split; [|split]; intros; open_sends.
  - destruct hours as [|[h|]]; vm_compute; reflexivity.
  - vm_compute; reflexivity.
  - vm_compute; reflexivity.
Qed.

(** C8, as stated, fails on an empty string: [get_pireps] called with
    id="" (a value the caller supplied, and not [None]) sends no "id" entry.
    The mapping it sends holds the format and the two defaults only. *)
Lemma C8_empty_id_is_not_sent :
  map req_params
    (sent (call_tool sample_float_repr
             (call_get_pireps (Passed (Some [])) Omitted Omitted Omitted)) no_data)
  = [ {[ lit "format" := VStr (lit "json"); lit "distance" := VInt 200;
         lit "age" := VFloat 2%float ]} ] /\
  ({[ lit "format" := VStr (lit "json"); lit "distance" := VInt 200;
      lit "age" := VFloat 2%float ]} : gmap str value) !! lit "id" = None.
Proof. split; vm_compute; reflexivity. Qed.

(** C8, amended.  For every tool and every network:
    - an optional parameter other than [format] that the caller leaves
      unset (omitted, or passed as [None]) is not in the mapping that is
      sent;
    - a parameter other than [format] that the caller supplies is sent with
      the supplied value, where for the string parameters [id] and [hazard]
      the value must be a non-empty string: an empty string is treated as
      absent and is not sent; the required [ids] is always sent;
    - [format] is always sent: with the caller's value when that is a
      non-empty string, and with "json" when it is omitted, [None] or the
      empty string;
    - [distance] and [age] of [get_pireps], when the caller omits them, are
      sent with their defaults 200 and 2.0. *)
Theorem C8_optional_parameters (float_repr : float -> str) (net : Transport) :
  (* unset, other than format: omitted from the mapping *)
  ((forall ids format,
      sends float_repr (call_get_metar ids Omitted format) net (lit "hours") None) /\
   (forall ids format,
      sends float_repr (call_get_metar ids (Passed None) format) net (lit "hours") None) /\
   (forall distance age format,
      sends float_repr (call_get_pireps Omitted distance age format) net (lit "id") None) /\
   (forall distance age format,
      sends float_repr (call_get_pireps (Passed None) distance age format) net
        (lit "id") None) /\
   (forall id age format,
      sends float_repr (call_get_pireps id (Passed None) age format) net
        (lit "distance") None) /\
   (forall id distance format,
      sends float_repr (call_get_pireps id distance (Passed None) format) net
        (lit "age") None) /\
   (forall format,
      sends float_repr (call_get_airsigmet format Omitted) net (lit "hazard") None) /\
   (forall format,
      sends float_repr (call_get_airsigmet format (Passed None)) net (lit "hazard") None)) /\
  (* supplied, other than format: sent with the supplied value *)
  ((forall ids h format,
      sends float_repr (call_get_metar ids (Passed (Some h)) format) net
        (lit "hours") (Some (VFloat h))) /\
   (forall s distance age format, s <> [] ->
      sends float_repr (call_get_pireps (Passed (Some s)) distance age format) net
        (lit "id") (Some (VStr s))) /\
   (forall id d age format,
      sends float_repr (call_get_pireps id (Passed (Some d)) age format) net
        (lit "distance") (Some (VInt d))) /\
   (forall id distance a format,
      sends float_repr (call_get_pireps id distance (Passed (Some a)) format) net
        (lit "age") (Some (VFloat a))) /\
   (forall format s, s <> [] ->
      sends float_repr (call_get_airsigmet format (Passed (Some s))) net
        (lit "hazard") (Some (VStr s))) /\
   (forall ids hours format,
      sends float_repr (call_get_metar ids hours format) net (lit "ids") (Some (VStr ids))) /\
   (forall ids format,
      sends float_repr (call_get_taf ids format) net (lit "ids") (Some (VStr ids))) /\
   (forall ids format,
      sends float_repr (call_get_station_info ids format) net
        (lit "ids") (Some (VStr ids)))) /\
  (* an empty string id or hazard counts as absent *)
  ((forall distance age format,
      sends float_repr (call_get_pireps (Passed (Some [])) distance age format) net
        (lit "id") None) /\
   (forall format,
      sends float_repr (call_get_airsigmet format (Passed (Some []))) net
        (lit "hazard") None)) /\
  (* format: always sent, the caller's non-empty value or "json" *)
  ((forall c s, call_format c = Passed (Some s) -> s <> [] ->
      sends float_repr c net (lit "format") (Some (VStr s))) /\
   (forall c, call_format c = Omitted \/ call_format c = Passed None
              \/ call_format c = Passed (Some []) ->
      sends float_repr c net (lit "format") (Some (VStr (lit "json"))))) /\
  (* adapter-level defaults of get_pireps *)
  ((forall id age format,
      sends float_repr (call_get_pireps id Omitted age format) net
        (lit "distance") (Some (VInt 200))) /\
   (forall id distance format,
      sends float_repr (call_get_pireps id distance Omitted format) net
        (lit "age") (Some (VFloat 2%float)))).
Proof.
  split; [|split; [|split; [|split]]].
  - repeat split; intros.
    + exact (metar_sends_hours float_repr net ids Omitted format).
    + exact (metar_sends_hours float_repr net ids (Passed None) format).
    + exact (pireps_sends_id float_repr net Omitted distance age format).
    + exact (pireps_sends_id float_repr net (Passed None) distance age format).
    + exact (pireps_sends_distance float_repr net id (Passed None) age format).
    + exact (pireps_sends_age float_repr net id distance (Passed None) format).
    + exact (airsigmet_sends_hazard float_repr net format Omitted).
    + exact (airsigmet_sends_hazard float_repr net format (Passed None)).
  - split; [|split; [|split; [|split; [|split; [|split; [|split]]]]]]; intros.
    + exact (metar_sends_hours float_repr net ids (Passed (Some h)) format).
    + destruct s as [|ch s]; [contradiction|].
      exact (pireps_sends_id float_repr net (Passed (Some (ch :: s))) distance age format).
    + exact (pireps_sends_distance float_repr net id (Passed (Some d)) age format).
    + exact (pireps_sends_age float_repr net id distance (Passed (Some a)) format).
    + destruct s as [|ch s]; [contradiction|].
      exact (airsigmet_sends_hazard float_repr net format (Passed (Some (ch :: s)))).
    + apply tools_send_ids.
    + apply tools_send_ids.
    + apply tools_send_ids.
  - split; intros.
    + exact (pireps_sends_id float_repr net (Passed (Some [])) distance age format).
    + exact (airsigmet_sends_hazard float_repr net format (Passed (Some []))).
  - split.
    + intros c s Hs Hne.
      pose proof (call_sends_format float_repr net c) as Hformat. rewrite Hs in Hformat.
      destruct s as [|ch s]; [contradiction | exact Hformat].
    + intros c Hfalsy.
      pose proof (call_sends_format float_repr net c) as Hformat.
      destruct Hfalsy as [Hs | [Hs | Hs]]; rewrite Hs in Hformat; exact Hformat.
  - split; intros.
    + exact (pireps_sends_distance float_repr net id Omitted age format).
    + exact (pireps_sends_age float_repr net id distance Omitted format).
Qed.

(** [get_pireps] around KORD with format=None: the station is sent, the
    defaults are sent, and the format falls back to "json". *)
Lemma C8_witness :
  KORD <> [] /\
  call_format (call_get_pireps (Passed (Some KORD)) Omitted Omitted (Passed None))
  = Passed None /\
  sends sample_float_repr
    (call_get_pireps (Passed (Some KORD)) Omitted Omitted (Passed None))
    no_data (lit "id") (Some (VStr KORD)) /\
  sends sample_float_repr
    (call_get_pireps (Passed (Some KORD)) Omitted Omitted (Passed None))
    no_data (lit "distance") (Some (VInt 200)) /\
  sends sample_float_repr
    (call_get_pireps (Passed (Some KORD)) Omitted Omitted (Passed None))
    no_data (lit "age") (Some (VFloat 2%float)) /\
  sends sample_float_repr
    (call_get_pireps (Passed (Some KORD)) Omitted Omitted (Passed None))
    no_data (lit "format") (Some (VStr (lit "json"))).
Proof.
  assert (Hne : KORD <> []) by discriminate.
  destruct (C8_optional_parameters sample_float_repr no_data)
    as (_ & (_ & Hid & _) & _ & (_ & Hformat) & Hdistance & Hage).
  split; [exact Hne|]. split; [reflexivity|]. split; [|split; [|split]].
  - exact (Hid KORD Omitted Omitted (Passed None) Hne).
  - exact (Hdistance (Passed (Some KORD)) Omitted (Passed None)).
  - exact (Hage (Passed (Some KORD)) Omitted (Passed None)).
  - exact (Hformat (call_get_pireps (Passed (Some KORD)) Omitted Omitted (Passed None))
             (or_intror (or_introl eq_refl))).
Defined.

(** C9, as stated, fails on an empty format: [get_metar] called with
    format="" sends format="json", not the value the caller supplied. *)
Lemma C9_empty_format_is_replaced :
  map req_params
    (sent (call_tool sample_float_repr
             (call_get_metar KTUS Omitted (Passed (Some [])))) no_data)
  = [ {[ lit "ids" := VStr KTUS; lit "format" := VStr (lit "json") ]} ] /\
  ({[ lit "ids" := VStr KTUS; lit "format" := VStr (lit "json") ]} : gmap str value)
    !! lit "format" <> Some (VStr []).
Proof. split; [vm_compute; reflexivity | vm_compute; discriminate]. Qed.

(** C9, amended.  Every call of every tool sends a "format" entry.  Its
    value is the caller's when the caller supplies a non-empty string, and
    "json" in every other case: the argument omitted, passed as [None], or
    passed as the empty string. *)
Theorem C9_format_is_always_sent
    (float_repr : float -> str) (c : call) (net : Transport) :
  (exists v, sends float_repr c net (lit "format") (Some (VStr v))) /\
  (forall s, call_format c = Passed (Some s) -> s <> [] ->
     sends float_repr c net (lit "format") (Some (VStr s))) /\
  (call_format c = Omitted \/ call_format c = Passed None
   \/ call_format c = Passed (Some []) ->
     sends float_repr c net (lit "format") (Some (VStr (lit "json")))).
Proof.
  pose proof (call_sends_format float_repr net c) as Hformat.
  split; [eauto|]. split.
  - intros s Hs Hne. rewrite Hs in Hformat.
    destruct s as [|ch s]; [contradiction | exact Hformat].
  - intros [Hs | [Hs | Hs]]; rewrite Hs in Hformat; exact Hformat.
Qed.

Lemma C9_witness :
  call_format (call_get_taf KTUS (Passed (Some (lit "raw")))) = Passed (Some (lit "raw")) /\
  lit "raw" <> [] /\
  sends sample_float_repr (call_get_taf KTUS (Passed (Some (lit "raw")))) no_data
    (lit "format") (Some (VStr (lit "raw"))) /\
  sends sample_float_repr (call_get_taf KTUS Omitted) no_data
    (lit "format") (Some (VStr (lit "json"))).
Proof.
  assert (Hne : lit "raw" <> []) by discriminate.
  split; [reflexivity|]. split; [exact Hne|]. split.
  - exact (proj1 (proj2 (C9_format_is_always_sent sample_float_repr
                           (call_get_taf KTUS (Passed (Some (lit "raw")))) no_data))
             (lit "raw") eq_refl Hne).
  - exact (proj2 (proj2 (C9_format_is_always_sent sample_float_repr
                           (call_get_taf KTUS Omitted) no_data))
             (or_introl eq_refl)).
Defined.

(** C10. A falsy [format] is replaced by the default.  For every call of
    every tool, when the caller passes format="" or format=None the
    "format" entry that is sent is "json"; and no call, whatever its
    arguments, sends an empty "format". *)
Theorem C10_falsy_format_becomes_json
    (float_repr : float -> str) (c : call) (net : Transport) :
  (call_format c = Passed (Some []) \/ call_format c = Passed None ->
   sends float_repr c net (lit "format") (Some (VStr (lit "json")))) /\
  ~ sends float_repr c net (lit "format") (Some (VStr [])).
Proof.
  pose proof (call_sends_format float_repr net c) as Hformat.
  split.
  - intros [Hs | Hs]; rewrite Hs in Hformat; exact Hformat.
  - intros Hempty.
    pose proof (sends_functional _ _ _ _ _ _ Hformat Hempty) as E.
    destruct (call_format c) as [|[[|ch s]|]]; discriminate E.
Qed.

Lemma C10_witness :
  call_format (call_get_station_info KTUS (Passed (Some []))) = Passed (Some []) /\
  sends sample_float_repr (call_get_station_info KTUS (Passed (Some []))) no_data
    (lit "format") (Some (VStr (lit "json"))) /\
  sends sample_float_repr (call_get_airsigmet (Passed None) Omitted) no_data
    (lit "format") (Some (VStr (lit "json"))).
Proof.
  split; [reflexivity|]. split.
  - exact (proj1 (C10_falsy_format_becomes_json sample_float_repr
                    (call_get_station_info KTUS (Passed (Some []))) no_data)
             (or_introl eq_refl)).
  - exact (proj1 (C10_falsy_format_becomes_json sample_float_repr
                    (call_get_airsigmet (Passed None) Omitted) no_data)
             (or_intror eq_refl)).
Defined.

(** * Further properties of the server *)

(** ** Requests *)

(** X1. A call makes exactly one request, and which one is settled by the
    call alone: whatever the network answers (a fault included, so nothing
    is retried), the same single request is sent.  It goes to the tool's
    endpoint under the fixed base URL, carries the User-Agent header and
    nothing else, and runs under the 15 second timeout. *)
Theorem X1_one_fixed_request_per_call (float_repr : float -> str) (c : call) :
  exists req,
    (forall net, sent (call_tool float_repr c) net = [req]) /\
    req_url req = lit "https://aviationweather.gov/api/data/" ++ endpoint_of c /\
    req_headers req
    = [(lit "User-Agent", lit "aviation-weather-mcp/1.0 (Claude Chat Connector)")] /\
    req_timeout req = 15%float.
Proof.
  destruct c as [ids hours format | ids format | id distance age format
                 | format hazard | ids format];
    unfold sent, call_tool, get_metar, get_taf, get_pireps, get_airsigmet,
      get_station_info;
    eexists; (split; [intros net; rewrite tool_run; reflexivity|]);
    repeat split.
Qed.

(** X2. A tool sends no key beyond the ones it declares: for every call,
    a key outside the tool's list is absent from the mapping sent. *)
Theorem X2_no_undeclared_key
    (float_repr : float -> str) (c : call) (net : Transport) (k : str) :
  k ∉ declared_keys c ->
  sends float_repr c net k None.
Proof.
  intros Hk.
  destruct c as [ids hours format | ids format | id distance age format
                 | format hazard | ids format];
    cbn [declared_keys] in Hk; open_sends;
    repeat match goal with
           | H : _ ∉ _ :: _ |- _ => apply not_elem_of_cons in H as [? H]
           end.
  - destruct hours as [|[h|]]; cbn [bind_default];
      rewrite ?lookup_insert_ne by congruence; apply lookup_empty.
  - rewrite ?lookup_insert_ne by congruence; apply lookup_empty.
  - destruct id as [|[[|ch s]|]], distance as [|[d|]], age as [|[a|]];
      cbn [bind_default str_bool];
      rewrite ?lookup_insert_ne by congruence; apply lookup_empty.
  - destruct hazard as [|[[|ch s]|]]; cbn [bind_default str_bool];
      rewrite ?lookup_insert_ne by congruence; apply lookup_empty.
  - rewrite ?lookup_insert_ne by congruence; apply lookup_empty.
Qed.

Lemma X2_witness :
  (lit "hours" ∉ declared_keys (call_get_taf KTUS Omitted)) /\
  sends sample_float_repr (call_get_taf KTUS Omitted) no_data (lit "hours") None.
Proof.
  assert (Hk : lit "hours" ∉ declared_keys (call_get_taf KTUS Omitted)).
  { cbn [declared_keys]. intros Hin.
    repeat (apply elem_of_cons in Hin as [Hin|Hin]; [discriminate Hin|]).
    apply elem_of_nil in Hin. exact Hin. }
  split; [exact Hk|].
  exact (X2_no_undeclared_key sample_float_repr (call_get_taf KTUS Omitted)
           no_data (lit "hours") Hk).
Defined.

(** ** Results *)

(** A serialised mapping or sequence opens with a brace or a bracket. *)
Lemma dumps_structured_opening float_repr (v : value) (indent : nat) :
  isinstance_dict_list v = true ->
  startswith (lit "{") (Json.dumps float_repr v indent) = true
  \/ startswith (lit "[") (Json.dumps float_repr v indent) = true.
Proof.
  destruct v as [| | | | |items|items]; try discriminate; intros _.
  - right. destruct items; reflexivity.
  - left. destruct items as [|[k w] items]; reflexivity.
Qed.

Lemma startswith_error_opening (s : str) :
  startswith (lit "{") s = true \/ startswith (lit "[") s = true ->
  startswith (lit "Error:") s = false.
Proof.
  destruct s as [|ch s]; [intros [H|H]; discriminate H|].
  cbn. intros [H|H]; apply andb_true_iff in H as [H _];
    apply N.eqb_eq in H; subst ch; reflexivity.
Qed.

(** X3. What a tool returns on a good answer.  For every call whose request
    is answered with a 2xx status other than 204:
    - when the content type does not contain "json", the tool returns the
      trimmed body text, unchanged;
    - when it does and the body parses to a mapping or a sequence, the tool
      returns that value serialised with indent 2, a text that opens with a
      brace or a bracket and so never begins with "Error:";
    - when it does and the body parses to any other JSON value (a string, a
      number, true, false, null), the tool returns that value as it is,
      without serialising it. *)
Theorem X3_results_on_success
    (float_repr : float -> str) (c : call) (net : Transport)
    (req : Request) (resp : Response) :
  sent (call_tool float_repr c) net = [req] ->
  net req = Returns resp ->
  is_success resp = true ->
  status_code resp <> 204 ->
  (contains (lit "json") (headers_get (headers resp) (lit "content-type") []) = false ->
   result (call_tool float_repr c) net = Returns (VStr (strip (text resp)))) /\
  (forall v,
     contains (lit "json") (headers_get (headers resp) (lit "content-type") []) = true ->
     json resp = Parsed v ->
     isinstance_dict_list v = true ->
     result (call_tool float_repr c) net = Returns (VStr (Json.dumps float_repr v 2)) /\
     startswith (lit "Error:") (Json.dumps float_repr v 2) = false) /\
  (forall v,
     contains (lit "json") (headers_get (headers resp) (lit "content-type") []) = true ->
     json resp = Parsed v ->
     isinstance_dict_list v = false ->
     result (call_tool float_repr c) net = Returns v).
Proof.
  intros Hsent Hnet Hok Hne. open_run float_repr c Hsent.
  rewrite Hnet, awc_outcome_success by assumption. unfold decode_success.
  split; [|split].
  - intros ->. reflexivity.
  - intros v -> -> Hv. cbn [tool_result]. rewrite Hv.
    split; [reflexivity|].
    apply startswith_error_opening, dumps_structured_opening, Hv.
  - intros v -> -> Hv. cbn [tool_result]. rewrite Hv. reflexivity.
Qed.

Lemma X3_witness :
  sent (call_tool sample_float_repr (call_get_metar KTUS Omitted (Passed (Some (lit "geojson")))))
    (always (Returns geojson_response))
  = [awc_request (lit "metar")
       (<[lit "format" := VStr (lit "geojson")]> (<[lit "ids" := VStr KTUS]> ∅))] /\
  is_success geojson_response = true /\
  status_code geojson_response <> 204 /\
  result (call_tool sample_float_repr
            (call_get_metar KTUS Omitted (Passed (Some (lit "geojson")))))
    (always (Returns geojson_response))
  = Returns (VStr (lit "{" ++ [LF]
                     ++ lit "  " ++ quoted (lit "type") ++ lit ": "
                     ++ quoted (lit "FeatureCollection") ++ lit "," ++ [LF]
                     ++ lit "  " ++ quoted (lit "features") ++ lit ": []" ++ [LF]
                     ++ lit "}")).
Proof.
  split; [reflexivity|]. split; [reflexivity|]. split; [discriminate|].
  refine (proj1 (proj1 (proj2 (X3_results_on_success sample_float_repr
                                 (call_get_metar KTUS Omitted (Passed (Some (lit "geojson"))))
                                 (always (Returns geojson_response))
                                 _ geojson_response eq_refl eq_refl eq_refl _))
                   _ eq_refl eq_refl eq_refl)).
  discriminate.
Defined.

(** X4. A tool returns a string on every path but one.  Every call
    returns; and if the returned value is not a string, then the request
    was answered with a 2xx status other than 204 whose content type
    contains "json" and whose body parsed to that very value, a JSON value
    that is neither a mapping nor a sequence (a number, true, false or
    null): the tool hands it back unserialised. *)
Theorem X4_result_is_a_string_unless_scalar_json
    (float_repr : float -> str) (c : call) (net : Transport) :
  exists v,
    result (call_tool float_repr c) net = Returns v /\
    (is_str v = false ->
     exists req resp,
       sent (call_tool float_repr c) net = [req] /\
       net req = Returns resp /\
       is_success resp = true /\
       status_code resp <> 204 /\
       contains (lit "json") (headers_get (headers resp) (lit "content-type") []) = true /\
       json resp = Parsed v /\
       isinstance_dict_list v = false).
Proof.
  destruct (call_tool_run float_repr c) as (endpoint & params & Hrun).
  unfold sent, result. rewrite Hrun. cbn [fst snd].
  eexists. split; [reflexivity|].
  unfold after_get.
  destruct (net (awc_request endpoint params)) as [resp|e] eqn:Hnet;
    [|discriminate].
  unfold awc_outcome.
  destruct (Z.eqb_spec (status_code resp) 204) as [E|Hne]; [discriminate|].
  destruct (Z.eqb_spec (status_code resp) 400) as [E|_]; [discriminate|].
  destruct (is_success resp) eqn:Hok; [|discriminate].
  unfold decode_success.
  destruct (contains _ _) eqn:Hct; [|discriminate].
  destruct (json resp) as [v|info] eqn:Hjson; [|discriminate].
  cbn [tool_result].
  destruct (isinstance_dict_list v) eqn:Hv; [discriminate|].
  intros _. exists (awc_request endpoint params), resp.
  repeat split; assumption.
Qed.

Lemma X4_witness :
  exists v,
    result (call_tool sample_float_repr (call_get_station_info KTUS Omitted))
      (always (Returns scalar_json_response)) = Returns v /\
    v = VInt 42 /\
    (is_str v = false ->
     exists req resp,
       sent (call_tool sample_float_repr (call_get_station_info KTUS Omitted))
         (always (Returns scalar_json_response)) = [req] /\
       always (Returns scalar_json_response) req = Returns resp /\
       is_success resp = true /\
       status_code resp <> 204 /\
       contains (lit "json") (headers_get (headers resp) (lit "content-type") []) = true /\
       json resp = Parsed v /\
       isinstance_dict_list v = false).
Proof.
  destruct (X4_result_is_a_string_unless_scalar_json sample_float_repr
              (call_get_station_info KTUS Omitted)
              (always (Returns scalar_json_response))) as (v & Hres & Hscalar).
  exists v. split; [exact Hres|]. split; [|exact Hscalar].
  injection Hres as <-. reflexivity.
Defined.

(** ** Faults of the shared helper *)

(** X5. [_awc_get] raises in three situations and no other.  It lets an
    exception [e] escape exactly when: the transport call itself raised
    [e]; or the answer has a status outside 200..299 other than 400 and [e]
    is the status error carrying that very answer; or the answer has a 2xx
    status other than 204, a content type containing "json", and decoding
    the body raised [e].  So a 204, a 400, and a 2xx answer of another
    content type never raise. *)
Theorem X5_awc_get_raises_exactly_when
    (endpoint : str) (params : gmap str value) (net : Transport) (e : exn) :
  result (_awc_get endpoint params) net = Raises e <->
  exists req,
    sent (_awc_get endpoint params) net = [req] /\
    (net req = Raises e
     \/ (exists resp,
           net req = Returns resp /\ is_success resp = false /\
           status_code resp <> 400 /\ e = HTTPStatusError resp)
     \/ (exists resp info,
           net req = Returns resp /\ is_success resp = true /\
           status_code resp <> 204 /\
           contains (lit "json") (headers_get (headers resp) (lit "content-type") []) = true /\
           json resp = DecodeError info /\ e = OtherException info)).
Proof.
  unfold sent, result. rewrite awc_get_run. cbn [fst snd]. unfold after_get.
  split.
  - intros Hraise. exists (awc_request endpoint params). split; [reflexivity|].
    destruct (net (awc_request endpoint params)) as [resp|e'] eqn:Hnet.
    + right. unfold awc_outcome in Hraise.
      destruct (Z.eqb_spec (status_code resp) 204) as [E|Hne]; [discriminate|].
      destruct (Z.eqb_spec (status_code resp) 400) as [E|Hne']; [discriminate|].
      destruct (is_success resp) eqn:Hok.
      * right. unfold decode_success in Hraise.
        destruct (contains _ _) eqn:Hct; [|discriminate].
        destruct (json resp) as [v|info] eqn:Hjson; [discriminate|].
        injection Hraise as <-. exists resp, info. repeat split; assumption.
      * left. injection Hraise as <-. exists resp. repeat split; assumption.
    + left. injection Hraise as <-. reflexivity.
  - intros (req & Hreq & Hcase). injection Hreq as <-.
    destruct Hcase as [Hnet | [(resp & Hnet & Hfail & Hne & ->)
                              | (resp & info & Hnet & Hok & Hne & Hct & Hjson & ->)]].
    + rewrite Hnet. reflexivity.
    + rewrite Hnet. apply awc_outcome_failure; assumption.
    + rewrite Hnet, awc_outcome_success by assumption.
      unfold decode_success. rewrite Hct, Hjson. reflexivity.
Qed.

(** ** Content type and trimming *)

Lemma headers_get_missing (h : list (str * str)) (key default : str) :
  has_header h key = false -> headers_get h key default = default.
Proof.
  intros Hmiss. unfold headers_get.
  assert (E : filter (fun kv : str * str => PyStr.eqb (lower (fst kv)) (lower key) = true) h = []).
  { induction h as [|kv h IH]; [reflexivity|].
    cbn [has_header existsb] in Hmiss. apply orb_false_iff in Hmiss as [Hkv Hrest].
    rewrite filter_cons, decide_False by (rewrite Hkv; discriminate).
    apply IH, Hrest. }
  rewrite E. reflexivity.
Qed.

(** X6. An answer without a content type is text.  When a 2xx answer other
    than 204 has no header named content-type (in any letter case),
    [_awc_get] takes the header to be empty and returns the trimmed body
    text; the body is not decoded, whatever it holds. *)
Theorem X6_missing_content_type_is_text
    (endpoint : str) (params : gmap str value) (net : Transport)
    (req : Request) (resp : Response) :
  sent (_awc_get endpoint params) net = [req] ->
  net req = Returns resp ->
  is_success resp = true ->
  status_code resp <> 204 ->
  has_header (headers resp) (lit "content-type") = false ->
  result (_awc_get endpoint params) net = Returns (VStr (strip (text resp))).
Proof.
  intros Hsent Hnet Hok Hne Hmiss.
  unfold sent, result in *. rewrite awc_get_run in *. cbn [fst snd] in *.
  injection Hsent as <-. unfold after_get.
  rewrite Hnet, awc_outcome_success by assumption.
  unfold decode_success. rewrite headers_get_missing by assumption. reflexivity.
Qed.

Lemma X6_witness :
  sent (_awc_get (lit "taf")
          (<[lit "format" := VStr (lit "json")]> (<[lit "ids" := VStr KTUS]> ∅)))
    (always (Returns unlabelled_response))
  = [awc_request (lit "taf")
       (<[lit "format" := VStr (lit "json")]> (<[lit "ids" := VStr KTUS]> ∅))] /\
  is_success unlabelled_response = true /\
  status_code unlabelled_response <> 204 /\
  has_header (headers unlabelled_response) (lit "content-type") = false /\
  result (_awc_get (lit "taf")
            (<[lit "format" := VStr (lit "json")]> (<[lit "ids" := VStr KTUS]> ∅)))
    (always (Returns unlabelled_response))
  = Returns (VStr (lit "[1, 2]")).
Proof.
  split; [reflexivity|]. split; [reflexivity|]. split; [discriminate|].
  split; [reflexivity|].
  refine (X6_missing_content_type_is_text (lit "taf") _
            (always (Returns unlabelled_response)) _ unlabelled_response
            eq_refl eq_refl eq_refl _ eq_refl).
  discriminate.
Defined.

Lemma lstrip_margin (s : str) :
  exists pre, s = pre ++ lstrip s /\ forallb isspace pre = true.
Proof.
  induction s as [|c s (pre & Hs & Hpre)]; [exists []; split; reflexivity|].
  cbn [lstrip]. destruct (isspace c) eqn:Hc.
  - exists (c :: pre). cbn. rewrite Hc, Hpre. split; [f_equal; exact Hs | reflexivity].
  - exists []. split; reflexivity.
Qed.

Lemma lstrip_head (s : str) (c : char) (t : str) :
  lstrip s = c :: t -> isspace c = false.
Proof.
  induction s as [|d s IH]; [discriminate|].
  cbn [lstrip]. destruct (isspace d) eqn:Hd; [exact IH|].
  intros E. injection E as <- _. exact Hd.
Qed.

Lemma forallb_rev {A} (f : A -> bool) (l : list A) :
  forallb f l = true -> forallb f (rev l) = true.
Proof.
  rewrite !forallb_forall. intros H x Hx. apply H, in_rev, Hx.
Qed.

Lemma rstrip_margin (s : str) :
  exists post, s = rstrip s ++ post /\ forallb isspace post = true.
Proof.
  destruct (lstrip_margin (rev s)) as (pre & Hs & Hpre).
  exists (rev pre). split; [|apply forallb_rev, Hpre].
  unfold rstrip. rewrite <- rev_app_distr, <- Hs, rev_involutive. reflexivity.
Qed.

Lemma rstrip_last (s : str) (c : char) (t : str) :
  rstrip s = t ++ [c] -> isspace c = false.
Proof.
  unfold rstrip. intros E.
  apply (f_equal (@rev char)) in E. rewrite rev_involutive, rev_app_distr in E.
  exact (lstrip_head _ _ _ E).
Qed.

(** [strip] removes a margin of whitespace on each side and nothing else,
    and what is left neither begins nor ends with whitespace. *)
Lemma strip_trims (s : str) :
  exists pre post,
    s = pre ++ strip s ++ post /\
    forallb isspace pre = true /\ forallb isspace post = true /\
    (forall c t, strip s = c :: t -> isspace c = false) /\
    (forall c t, strip s = t ++ [c] -> isspace c = false).
Proof.
  destruct (lstrip_margin s) as (pre & Hs & Hpre).
  destruct (rstrip_margin (lstrip s)) as (post & Hl & Hpost).
  exists pre, post. fold (strip s) in Hl.
  split; [rewrite <- Hl; exact Hs|]. split; [exact Hpre|]. split; [exact Hpost|].
  split.
  - intros c t E. rewrite E in Hl. exact (lstrip_head _ _ _ Hl).
  - intros c t E. exact (rstrip_last _ _ _ E).
Qed.

(** X7. A text answer comes back trimmed and otherwise untouched.  When a
    2xx answer other than 204 has a content type without "json",
    [_awc_get] returns a text [t] such that the body is [t] between two
    margins made of whitespace only, and [t] itself neither begins nor
    ends with a whitespace character. *)
Theorem X7_text_result_is_the_trimmed_body
    (endpoint : str) (params : gmap str value) (net : Transport)
    (req : Request) (resp : Response) :
  sent (_awc_get endpoint params) net = [req] ->
  net req = Returns resp ->
  is_success resp = true ->
  status_code resp <> 204 ->
  contains (lit "json") (headers_get (headers resp) (lit "content-type") []) = false ->
  exists t pre post,
    result (_awc_get endpoint params) net = Returns (VStr t) /\
    text resp = pre ++ t ++ post /\
    forallb isspace pre = true /\ forallb isspace post = true /\
    (forall c t', t = c :: t' -> isspace c = false) /\
    (forall c t', t = t' ++ [c] -> isspace c = false).
Proof.
  intros Hsent Hnet Hok Hne Hct.
  destruct (strip_trims (text resp)) as (pre & post & Htrim).
  exists (strip (text resp)), pre, post. split; [|exact Htrim].
  unfold sent, result in *. rewrite awc_get_run in *. cbn [fst snd] in *.
  injection Hsent as <-. unfold after_get.
  rewrite Hnet, awc_outcome_success by assumption.
  unfold decode_success. rewrite Hct. reflexivity.
Qed.

Lemma X7_witness :
  sent (_awc_get (lit "metar")
          (<[lit "format" := VStr (lit "raw")]> (<[lit "ids" := VStr KTUS]> ∅)))
    (always (Returns raw_response))
  = [awc_request (lit "metar")
       (<[lit "format" := VStr (lit "raw")]> (<[lit "ids" := VStr KTUS]> ∅))] /\
  is_success raw_response = true /\
  status_code raw_response <> 204 /\
  contains (lit "json") (headers_get (headers raw_response) (lit "content-type") []) = false /\
  exists t pre post,
    result (_awc_get (lit "metar")
              (<[lit "format" := VStr (lit "raw")]> (<[lit "ids" := VStr KTUS]> ∅)))
      (always (Returns raw_response)) = Returns (VStr t) /\
    text raw_response = pre ++ t ++ post /\
    forallb isspace pre = true /\ forallb isspace post = true /\
    (forall c t', t = c :: t' -> isspace c = false) /\
    (forall c t', t = t' ++ [c] -> isspace c = false).
Proof.
  split; [reflexivity|]. split; [reflexivity|]. split; [discriminate|].
  split; [reflexivity|].
  refine (X7_text_result_is_the_trimmed_body (lit "metar") _
            (always (Returns raw_response)) _ raw_response
            eq_refl eq_refl eq_refl _ eq_refl).
  discriminate.
Defined.

(** ** One answer, one result *)

(** X8. What a tool returns is settled by what the network did with its
    request, and by nothing else: take any two calls, of the same tool or
    of two different tools, with any arguments, each run against a network
    of its own; if the two requests met the same fate (the same response,
    or the same exception) then the two calls return the same result.  No
    tool treats an answer differently from another. *)
Theorem X8_result_depends_on_the_answer_only
    (float_repr : float -> str) (c1 c2 : call) (net1 net2 : Transport)
    (req1 req2 : Request) :
  sent (call_tool float_repr c1) net1 = [req1] ->
  sent (call_tool float_repr c2) net2 = [req2] ->
  net1 req1 = net2 req2 ->
  result (call_tool float_repr c1) net1 = result (call_tool float_repr c2) net2.
Proof.
  intros Hsent1 Hsent2 Hsame.
  destruct (call_tool_run float_repr c1) as (endpoint1 & params1 & Hrun1).
  destruct (call_tool_run float_repr c2) as (endpoint2 & params2 & Hrun2).
  unfold sent, result in *. rewrite Hrun1, Hrun2 in *. cbn [fst snd] in *.
  injection Hsent1 as <-. injection Hsent2 as <-.
  unfold after_get. rewrite Hsame. reflexivity.
Qed.

(** [get_metar] for KTUS and [get_pireps] with no argument, both answered
    with the same 503, return the same error text. *)
Lemma X8_witness :
  sent (call_tool sample_float_repr (call_get_metar KTUS Omitted Omitted))
    (always (Returns unavailable_response))
  = [awc_request (lit "metar")
       (<[lit "format" := VStr (lit "json")]> (<[lit "ids" := VStr KTUS]> ∅))] /\
  sent (call_tool sample_float_repr (call_get_pireps Omitted Omitted Omitted Omitted))
    (always (Returns unavailable_response))
  = [awc_request (lit "pirep")
       (<[lit "age" := VFloat 2%float]>
          (<[lit "distance" := VInt 200]>
             (<[lit "format" := VStr (lit "json")]> ∅)))] /\
  result (call_tool sample_float_repr (call_get_metar KTUS Omitted Omitted))
    (always (Returns unavailable_response))
  = result (call_tool sample_float_repr (call_get_pireps Omitted Omitted Omitted Omitted))
      (always (Returns unavailable_response)).
Proof.
  split; [reflexivity|]. split; [reflexivity|].
  exact (X8_result_depends_on_the_answer_only sample_float_repr
           (call_get_metar KTUS Omitted Omitted)
           (call_get_pireps Omitted Omitted Omitted Omitted)
           (always (Returns unavailable_response))
           (always (Returns unavailable_response))
           _ _ eq_refl eq_refl eq_refl).
Defined.

(** ** The characters of a serialised answer *)

Lemma ascii_text_app (a b : str) :
  ascii_text (a ++ b) = ascii_text a && ascii_text b.
Proof. apply forallb_app. Qed.

Lemma land_15_bound (n : N) : (N.land n 15 < 16)%N.
Proof.
  change 15%N with (N.ones 4). rewrite N.land_ones.
  apply N.mod_lt. discriminate.
Qed.

Lemma hex_digit_ascii (d : N) : (d < 16)%N -> ascii_char (hex_digit d) = true.
Proof.
  intros Hd. unfold hex_digit, ascii_char.
  destruct (N.ltb_spec d 10) as [H|H];
    apply orb_true_iff; right; apply andb_true_iff; split; apply N.leb_le; lia.
Qed.

Lemma hex4_ascii (n : N) : ascii_text (hex4 n) = true.
Proof.
  unfold hex4, ascii_text. cbn [forallb].
  rewrite !hex_digit_ascii by apply land_15_bound. reflexivity.
Qed.

Lemma escape_char_ascii (c : char) : ascii_text (Json.escape_char c) = true.
Proof.
  unfold Json.escape_char.
  repeat match goal with
         | |- context [if ?b then _ else _] => destruct b eqn:?
         end;
    rewrite ?ascii_text_app, ?hex4_ascii; try reflexivity.
  unfold ascii_text, ascii_char. cbn [forallb].
  match goal with H : (_ && _)%bool = true |- _ => rewrite H end.
  rewrite orb_true_r. reflexivity.
Qed.

Lemma encode_basestring_ascii_is_ascii (s : str) :
  ascii_text (Json.encode_basestring_ascii s) = true.
Proof.
  assert (Hbody : ascii_text (concat (map Json.escape_char s)) = true).
  { induction s as [|c s IH]; [reflexivity|].
    cbn [map concat]. rewrite ascii_text_app, escape_char_ascii, IH. reflexivity. }
  unfold Json.encode_basestring_ascii.
  rewrite !ascii_text_app, Hbody. reflexivity.
Qed.

Lemma string_of_uint_ascii (d : Decimal.uint) :
  ascii_text (lit (NilEmpty.string_of_uint d)) = true.
Proof. induction d; cbn; try assumption; reflexivity. Qed.

Lemma of_int_ascii (n : Z) : ascii_text (of_int n) = true.
Proof.
  unfold of_int, NilZero.string_of_int, NilZero.string_of_uint.
  destruct (Z.to_int n) as [d|d].
  - destruct d; try reflexivity; apply string_of_uint_ascii.
  - change (ascii_text (lit "-" ++ lit (match d with
                                        | Decimal.Nil => "0"%string
                                        | _ => NilEmpty.string_of_uint d
                                        end)) = true).
    rewrite ascii_text_app.
    destruct d; try reflexivity; apply string_of_uint_ascii.
Qed.

Lemma newline_indent_ascii (indent level : nat) :
  ascii_text (Json.newline_indent indent level) = true.
Proof.
  unfold Json.newline_indent, repeat_char.
  induction (indent * level)%nat as [|n IH]; [reflexivity | exact IH].
Qed.

Section DumpsAscii.
Variable float_repr : float -> str.
Hypothesis float_repr_ascii : forall f, ascii_text (float_repr f) = true.

Lemma floatstr_ascii (o : float) : ascii_text (Json.floatstr float_repr o) = true.
Proof.
  unfold Json.floatstr.
  destruct (is_nan o); [reflexivity|].
  destruct (is_infinity o); [destruct (ltb o zero); reflexivity|].
  apply float_repr_ascii.
Qed.

Lemma iterencode_ascii (v : value) (indent : nat) :
  forall level, ascii_text (Json.iterencode float_repr indent v level) = true.
Proof.
  induction v as [|b|n|f|s|items IH|items IH] using value_nested_ind; intros level.
  - reflexivity.
  - destruct b; reflexivity.
  - apply of_int_ascii.
  - apply floatstr_ascii.
  - apply encode_basestring_ascii_is_ascii.
  - destruct items as [|w rest]; [reflexivity|].
    apply Forall_cons in IH as [Hw Hrest].
    cbn [Json.iterencode].
    rewrite !ascii_text_app, !newline_indent_ascii, Hw.
    assert (ascii_text (lit "[") = true) as -> by reflexivity.
    assert (ascii_text (lit "]") = true) as -> by reflexivity.
    rewrite andb_true_r. cbn [andb].
    induction Hrest as [|x rest Hx Hrest IHrest]; [reflexivity|].
    cbn -[ascii_text app lit Json.iterencode Json.newline_indent].
    rewrite !ascii_text_app, newline_indent_ascii, Hx, IHrest. reflexivity.
  - destruct items as [|[k w] rest]; [reflexivity|].
    apply Forall_cons in IH as [Hw Hrest]. cbn [snd] in Hw.
    cbn [Json.iterencode].
    rewrite !ascii_text_app, !newline_indent_ascii, Hw, encode_basestring_ascii_is_ascii.
    assert (ascii_text (lit "{") = true) as -> by reflexivity.
    assert (ascii_text (lit "}") = true) as -> by reflexivity.
    assert (ascii_text (lit ": ") = true) as -> by reflexivity.
    rewrite andb_true_r. cbn [andb].
    induction Hrest as [|[k' x] rest Hx Hrest IHrest]; [reflexivity|].
    cbn [snd] in Hx.
    cbn -[ascii_text app lit Json.iterencode Json.newline_indent
          Json.encode_basestring_ascii].
    rewrite !ascii_text_app, newline_indent_ascii, encode_basestring_ascii_is_ascii,
      Hx, IHrest.
    reflexivity.
Qed.

End DumpsAscii.

Lemma dumps_ascii (float_repr : float -> str) (v : value) (indent : nat) :
  (forall f, ascii_text (float_repr f) = true) ->
  ascii_text (Json.dumps float_repr v indent) = true.
Proof. intros Hrepr. apply iterencode_ascii, Hrepr. Qed.

(** X9. A structured result is plain ASCII.  [json.dumps] runs with its
    default [ensure_ascii], so whenever a tool answers with a serialised
    mapping or sequence (the 204 message, the 400 message with whatever
    body it embeds, or a parsed JSON answer) the returned text holds only
    printable ASCII characters and line feeds, provided [float.__repr__]
    yields such text. *)
Theorem X9_structured_results_are_ascii
    (float_repr : float -> str) (c : call) (net : Transport)
    (req : Request) (resp : Response) :
  (forall f, ascii_text (float_repr f) = true) ->
  sent (call_tool float_repr c) net = [req] ->
  net req = Returns resp ->
  status_code resp = 204 \/ status_code resp = 400
  \/ (is_success resp = true /\
      contains (lit "json") (headers_get (headers resp) (lit "content-type") []) = true /\
      exists v, json resp = Parsed v /\ isinstance_dict_list v = true) ->
  exists s,
    result (call_tool float_repr c) net = Returns (VStr s) /\ ascii_text s = true.
Proof.
  intros Hrepr Hsent Hnet Hcase. open_run float_repr c Hsent. rewrite Hnet.
  destruct (Z.eq_dec (status_code resp) 204) as [E204|Hne].
  { rewrite awc_outcome_204 by assumption.
    eexists. split; [reflexivity|]. apply dumps_ascii, Hrepr. }
  destruct Hcase as [E|[E|(Hok & Hct & v & Hjson & Hv)]]; [contradiction| |].
  - rewrite awc_outcome_400 by assumption.
    eexists. split; [reflexivity|]. apply dumps_ascii, Hrepr.
  - rewrite awc_outcome_success by assumption.
    unfold decode_success. rewrite Hct, Hjson. cbn [tool_result]. rewrite Hv.
    eexists. split; [reflexivity|]. apply dumps_ascii, Hrepr.
Qed.

Lemma X9_witness :
  (forall f, ascii_text (sample_float_repr f) = true) /\
  sent (call_tool sample_float_repr (call_get_metar KTUS Omitted Omitted))
    (always (Returns bad_request_umlaut_response))
  = [awc_request (lit "metar")
       (<[lit "format" := VStr (lit "json")]> (<[lit "ids" := VStr KTUS]> ∅))] /\
  status_code bad_request_umlaut_response = 400 /\
  ascii_text (strip (text bad_request_umlaut_response)) = false /\
  exists s,
    result (call_tool sample_float_repr (call_get_metar KTUS Omitted Omitted))
      (always (Returns bad_request_umlaut_response)) = Returns (VStr s) /\
    ascii_text s = true.
Proof.
  assert (Hrepr : forall f, ascii_text (sample_float_repr f) = true)
    by (intros f; reflexivity).
  split; [exact Hrepr|]. split; [reflexivity|]. split; [reflexivity|].
  split; [reflexivity|].
  exact (X9_structured_results_are_ascii sample_float_repr
           (call_get_metar KTUS Omitted Omitted)
           (always (Returns bad_request_umlaut_response))
           _ bad_request_umlaut_response Hrepr eq_refl eq_refl
           (or_intror (or_introl eq_refl))).
Defined.

(** ** What "json" in the content type means *)

Lemma startswith_spec (p s : str) :
  startswith p s = true <-> exists t, s = p ++ t.
Proof.
  revert s. induction p as [|a p IH]; intros s; cbn [startswith].
  - split; [intros _; exists s; reflexivity | reflexivity].
  - destruct s as [|b s]; [split; [discriminate | intros [t E]; discriminate E]|].
    rewrite andb_true_iff, N.eqb_eq, IH. split.
    + intros [-> [t ->]]. exists t. reflexivity.
    + intros [t E]. injection E as -> ->. split; [reflexivity | exists t; reflexivity].
Qed.

Lemma contains_spec (sub s : str) :
  contains sub s = true <-> exists pre post, s = pre ++ sub ++ post.
Proof.
  induction s as [|c s IH]; cbn [contains]; rewrite orb_true_iff, startswith_spec.
  - split.
    + intros [[t E] | H]; [exists [], t; exact E | discriminate H].
    + intros (pre & post & E). left. destruct pre as [|d pre]; [|discriminate E].
      exists post. exact E.
  - rewrite IH. split.
    + intros [[t E] | (pre & post & E)].
      * exists [], t. exact E.
      * exists (c :: pre), post. cbn. rewrite E. reflexivity.
    + intros (pre & post & E). destruct pre as [|d pre].
      * left. exists post. exact E.
      * right. injection E as _ E. exists pre, post. exact E.
Qed.

(** X10. The body of a 2xx answer other than 204 is decoded as JSON exactly
    when the letters "json", in lower case and in a row, occur somewhere in
    the value of its content-type header: if the value splits as
    [pre ++ "json" ++ post] the result is what [resp.json()] gives, and if
    it has no such split the result is the trimmed body text. *)
Theorem X10_json_is_a_substring_test
    (endpoint : str) (params : gmap str value) (net : Transport)
    (req : Request) (resp : Response) :
  sent (_awc_get endpoint params) net = [req] ->
  net req = Returns resp ->
  is_success resp = true ->
  status_code resp <> 204 ->
  ((exists pre post,
      headers_get (headers resp) (lit "content-type") [] = pre ++ lit "json" ++ post) ->
   result (_awc_get endpoint params) net
   = match json resp with
     | Parsed v => Returns v
     | DecodeError info => Raises (OtherException info)
     end) /\
  (~ (exists pre post,
        headers_get (headers resp) (lit "content-type") [] = pre ++ lit "json" ++ post) ->
   result (_awc_get endpoint params) net = Returns (VStr (strip (text resp)))).
Proof.
  intros Hsent Hnet Hok Hne.
  unfold sent, result in *. rewrite awc_get_run in *. cbn [fst snd] in *.
  injection Hsent as <-. unfold after_get.
  rewrite Hnet, awc_outcome_success by assumption. unfold decode_success.
  split.
  - intros Hsplit. apply contains_spec in Hsplit. rewrite Hsplit. reflexivity.
  - intros Hnone.
    destruct (contains (lit "json") _) eqn:Hct; [|reflexivity].
    apply contains_spec in Hct. contradiction.
Qed.

Lemma X10_witness :
  sent (_awc_get (lit "metar")
          (<[lit "format" := VStr (lit "geojson")]> (<[lit "ids" := VStr KTUS]> ∅)))
    (always (Returns geojson_response))
  = [awc_request (lit "metar")
       (<[lit "format" := VStr (lit "geojson")]> (<[lit "ids" := VStr KTUS]> ∅))] /\
  is_success geojson_response = true /\
  status_code geojson_response <> 204 /\
  headers_get (headers geojson_response) (lit "content-type") []
  = lit "application/geo+" ++ lit "json" ++ [] /\
  result (_awc_get (lit "metar")
            (<[lit "format" := VStr (lit "geojson")]> (<[lit "ids" := VStr KTUS]> ∅)))
    (always (Returns geojson_response))
  = Returns (VDict [(lit "type", VStr (lit "FeatureCollection"));
                    (lit "features", VList [])]).
Proof.
  split; [reflexivity|]. split; [reflexivity|]. split; [discriminate|].
  split; [reflexivity|].
  refine (proj1 (X10_json_is_a_substring_test (lit "metar") _
                   (always (Returns geojson_response)) _ geojson_response
                   eq_refl eq_refl eq_refl _) _).
  - discriminate.
  - exists (lit "application/geo+"), []. reflexivity.
Defined.
